(** * Health probes and status reconciliation of the ScyllaDB operator

    A shallow embedding of
    - [pkg/probeserver/scylladbapistatus/prober.go] (the [Readyz] and
      [Healthz] handlers of a node), and
    - the status part of the [scylladbdatacenter] controller
      ([updateStatus], [calculateRackStatus], [updateAggregatedStatusFields],
      [calculateStatus], [setPrewarmedStatusCondition]),
    followed by the properties of the two engines.

    Conventions.  A Go [(T, error)] result is a [result T]; a Go pointer
    [*T] that may be nil is an [option T], and dereferencing nil is a panic,
    which the functions that can reach one return as [None].  [int32]
    arithmetic wraps ([int32_wrap]).  Go maps are [gmap]s.  Logging through
    klog is not modelled: no decision of the code reads it back. *)

From Stdlib Require Import ZArith Lia.
From stdpp Require Import base option list strings pretty gmap.

Local Open Scope Z_scope.
Local Open Scope string_scope.
Local Open Scope list_scope.

(** ** Errors and results *)

(** Go [error] values, as far as the code inspects them. *)
#[warnings="-register-all"] Inductive error : Type :=
| ErrNotExist                                  (* fs.ErrNotExist *)
| ErrString (msg : string)                     (* errors.New / fmt.Errorf without %w *)
| ErrWrap (msg : string) (cause : error)       (* fmt.Errorf("...: %w", cause), *PathError *)
| ErrAggregate (errs : list error).            (* utilerrors.Aggregate *)

Inductive result (A : Type) : Type :=
| Ok (a : A)
| Err (e : error).
Arguments Ok {A} a.
Arguments Err {A} e.

(** [errors.Is(err, fs.ErrNotExist)]: follows the chain of wrapped causes;
    an aggregate matches when one of its members does. *)
Fixpoint errors_Is_NotExist (e : error) : bool :=
  match e with
  | ErrNotExist => true
  | ErrString _ => false
  | ErrWrap _ cause => errors_Is_NotExist cause
  | ErrAggregate errs => existsb errors_Is_NotExist errs
  end.

(** [utilerrors.NewAggregate]: nil for an empty list, else one error that
    holds every member. *)
Definition NewAggregate (errs : list error) : option error :=
  match errs with
  | [] => None
  | _ :: _ => Some (ErrAggregate errs)
  end.

(** The [%q] verb on a string ([strconv.Quote]), byte by byte.  A double
    quote and a backslash get a backslash in front; the printable ASCII
    bytes stay; the seven control bytes with a letter escape get it; the
    other bytes below 0x20 and 0x7f become [\x] and two lower-case hex
    digits.  Bytes from 0x80 on are kept, as Go keeps the UTF-8 encoding of
    a printable rune (it escapes the unprintable and the malformed ones,
    from tables that are not modelled). *)
Definition lowerhex (n : nat) : Ascii.ascii :=
  match String.get n "0123456789abcdef" with
  | Some a => a
  | None => Ascii.ascii_of_nat 48
  end.

Definition quoteByte (a : Ascii.ascii) : string :=
  let n := Ascii.nat_of_ascii a in
  let backslash := Ascii.ascii_of_nat 92 in
  if (n =? 34)%nat || (n =? 92)%nat then String backslash (String a EmptyString)
  else if (n =? 7)%nat then String backslash "a"
  else if (n =? 8)%nat then String backslash "b"
  else if (n =? 12)%nat then String backslash "f"
  else if (n =? 10)%nat then String backslash "n"
  else if (n =? 13)%nat then String backslash "r"
  else if (n =? 9)%nat then String backslash "t"
  else if (n =? 11)%nat then String backslash "v"
  else if (n <? 32)%nat || (n =? 127)%nat
  then String backslash
         ("x" +:+ String (lowerhex (n / 16)) (String (lowerhex (n mod 16)) EmptyString))
  else String a EmptyString.

Fixpoint quoteBody (s : string) : string :=
  match s with
  | EmptyString => EmptyString
  | String a rest => quoteByte a +:+ quoteBody rest
  end.

Definition fmt_q (s : string) : string :=
  String (Ascii.ascii_of_nat 34)
    (quoteBody s +:+ String (Ascii.ascii_of_nat 34) EmptyString).

(** ** [int32] *)

Definition int32_wrap (z : Z) : Z := (z + 2 ^ 31) mod 2 ^ 32 - 2 ^ 31.
Definition int32_add (a b : Z) : Z := int32_wrap (a + b).
Definition in_int32 (z : Z) : Prop := - 2 ^ 31 <= z < 2 ^ 31.

(** ** net/http status codes *)

Definition StatusOK : Z := 200.
Definition StatusInternalServerError : Z := 500.
Definition StatusServiceUnavailable : Z := 503.

(** ** Kubernetes objects shared by the two engines *)

Module Service.
Record t : Type := mk { Name : string; Labels : gmap string string }.
End Service.

(** * The probe engine (prober.go) *)

Definition localhost : string := "localhost".

(** Modelled from the spec: the declaration of the node-status entry and
    its [IsUN] method live in the scyllaclient package, which is not among
    the sources.  An entry has an address, a host identifier, an operational
    status and a detailed state; [IsUN] holds when the pair denotes
    "up and normal". *)
Inductive NodeStatus : Type := NodeStatusUp | NodeStatusDown.
Inductive NodeState : Type :=
  NodeStateNormal | NodeStateLeaving | NodeStateJoining | NodeStateMoving.

Module NodeStatusInfo.
Record t : Type := mk {
  Addr : string;
  HostID : string;
  Status : NodeStatus;
  State : NodeState
}.

Definition IsUN (s : t) : bool :=
  match Status s, State s with
  | NodeStatusUp, NodeStateNormal => true
  | _, _ => false
  end.
End NodeStatusInfo.

(** The client of the node's administrative API, as the answers the node
    gives during one probe. *)
Module ScyllaClient.
Record t : Type := mk {
  Status : string -> result (list NodeStatusInfo.t);
  GetLocalHostId : string -> bool -> result string;
  IsNativeTransportEnabled : string -> result bool;
  Ping : string -> result Z
}.
End ScyllaClient.

(** What surrounds a probe besides its own fields: the filesystem and the
    constructor of the local client. *)
Record World : Type := {
  os_Stat : string -> option error;
  NewScyllaClientForLocalhost : result ScyllaClient.t
}.

Record Prober : Type := {
  namespace : string;
  serviceName : string;
  serviceLister : string -> string -> result Service.t;
  awaitPaths : list string
}.

(** The calls a handler makes to its collaborators, in order. *)
Inductive Call : Type :=
| CallStat (path : string)
| CallGetService (ns name : string)
| CallNewScyllaClient
| CallClose
| CallStatus (host : string)
| CallGetLocalHostId (host : string) (useHostsFile : bool)
| CallIsNativeTransportEnabled (host : string)
| CallPing (host : string).

(** The observable run of a handler: the codes given to [w.WriteHeader] and
    the calls made, both oldest first. *)
Record Run : Type := { written : list Z; calls : list Call }.

Definition emptyRun : Run := {| written := []; calls := [] |}.

(** A handler step reads the world, extends the run and either yields a
    value or has executed [return] ([None]). *)
Definition Handler (A : Type) : Type := World -> Run -> option A * Run.

Definition hret {A} (a : A) : Handler A := fun _ r => (Some a, r).

Definition hbind {A B} (m : Handler A) (k : A -> Handler B) : Handler B :=
  fun w r =>
    match m w r with
    | (Some a, r') => k a w r'
    | (None, r') => (None, r')
    end.

Definition hreturn {A} : Handler A := fun _ r => (None, r).

Notation "x <- m ;; k" := (hbind m (fun x => k))
  (at level 100, m at next level, right associativity).
Notation "m ;;; k" := (hbind m (fun _ => k))
  (at level 100, right associativity).

Definition call (c : Call) : Handler unit :=
  fun _ r => (Some tt, {| written := written r; calls := calls r ++ [c] |}).

Definition ask {A} (f : World -> A) : Handler A := fun w r => (Some (f w), r).

Definition WriteHeader (code : Z) : Handler unit :=
  fun _ r => (Some tt, {| written := written r ++ [code]; calls := calls r |}).

(** [defer d] around the rest of a function body: [d] runs when the body
    ends, whether by [return] or by reaching its end. *)
Definition defer (d : Handler unit) (body : Handler unit) : Handler unit :=
  fun w r => let '(_, r') := body w r in d w r'.

(** [if c { body; return }] *)
Definition whenReturn (c : bool) (body : Handler unit) : Handler unit :=
  if c then body ;;; hreturn else hret tt.

Definition runHandler (h : Handler unit) (w : World) : Run := snd (h w emptyRun).

Section ProbeEngine.
(** [naming.NodeMaintenanceLabel], declared outside the sources. *)
Variable NodeMaintenanceLabel : string.

Definition isNodeUnderMaintenance (p : Prober) : Handler (bool * option error) :=
  call (CallGetService (namespace p) (serviceName p)) ;;;
  match serviceLister p (namespace p) (serviceName p) with
  | Err err => hret (false, Some err)
  | Ok svc =>
      let hasLabel := bool_decide (is_Some (Service.Labels svc !! NodeMaintenanceLabel)) in
      hret (hasLabel, None)
  end.

(** The loop of [awaitPathsExist] over the paths still to visit, with the
    loop-carried [ready] and [errs]. *)
Fixpoint awaitPathsLoop (paths : list string) (ready : bool) (errs : list error)
  : Handler (bool * list error) :=
  match paths with
  | [] => hret (ready, errs)
  | path :: rest =>
      call (CallStat path) ;;;
      err <- ask (fun w => os_Stat w path) ;;
      match err with
      | Some err =>
          if negb (errors_Is_NotExist err)
          then awaitPathsLoop rest ready
                 (errs ++ [ErrWrap ("can't stat path " +:+ fmt_q path) err])
          else awaitPathsLoop rest false errs
      | None => awaitPathsLoop rest ready errs
      end
  end.

Definition awaitPathsExist (p : Prober) : Handler (bool * option error) :=
  re <- awaitPathsLoop (awaitPaths p) true [] ;;
  match NewAggregate (snd re) with
  | Some err => hret (false, Some err)
  | None => hret (fst re, None)
  end.

(** The loop of [Readyz] over the node statuses. *)
Fixpoint readyzScan (scyllaClient : ScyllaClient.t) (hostID : string)
    (nodeStatuses : list NodeStatusInfo.t) : Handler unit :=
  match nodeStatuses with
  | [] => hret tt
  | s :: rest =>
      (if bool_decide (NodeStatusInfo.HostID s = hostID) && NodeStatusInfo.IsUN s
       then
         call (CallIsNativeTransportEnabled localhost) ;;;
         match ScyllaClient.IsNativeTransportEnabled scyllaClient localhost with
         | Err err => WriteHeader StatusServiceUnavailable ;;; hreturn
         | Ok transportEnabled =>
             whenReturn transportEnabled (WriteHeader StatusOK)
         end
       else hret tt) ;;;
      readyzScan scyllaClient hostID rest
  end.

Definition Readyz (p : Prober) : Handler unit :=
  ae <- awaitPathsExist p ;;
  whenReturn (bool_decide (is_Some (snd ae)))
    (WriteHeader StatusInternalServerError) ;;;
  whenReturn (negb (fst ae))
    (WriteHeader StatusServiceUnavailable) ;;;
  um <- isNodeUnderMaintenance p ;;
  whenReturn (bool_decide (is_Some (snd um)))
    (WriteHeader StatusServiceUnavailable) ;;;
  whenReturn (fst um)
    (WriteHeader StatusServiceUnavailable) ;;;
  call CallNewScyllaClient ;;;
  sc <- ask NewScyllaClientForLocalhost ;;
  match sc with
  | Err err => WriteHeader StatusInternalServerError ;;; hreturn
  | Ok scyllaClient =>
      defer (call CallClose)
        (call (CallStatus localhost) ;;;
         match ScyllaClient.Status scyllaClient localhost with
         | Err err => WriteHeader StatusInternalServerError ;;; hreturn
         | Ok nodeStatuses =>
             call (CallGetLocalHostId localhost false) ;;;
             match ScyllaClient.GetLocalHostId scyllaClient localhost false with
             | Err err => WriteHeader StatusInternalServerError ;;; hreturn
             | Ok hostID =>
                 readyzScan scyllaClient hostID nodeStatuses ;;;
                 WriteHeader StatusServiceUnavailable
             end
         end)
  end.

Definition Healthz (p : Prober) : Handler unit :=
  ae <- awaitPathsExist p ;;
  whenReturn (bool_decide (is_Some (snd ae)))
    (WriteHeader StatusInternalServerError) ;;;
  whenReturn (negb (fst ae))
    (WriteHeader StatusOK) ;;;
  um <- isNodeUnderMaintenance p ;;
  whenReturn (bool_decide (is_Some (snd um)))
    (WriteHeader StatusServiceUnavailable) ;;;
  whenReturn (fst um)
    (WriteHeader StatusOK) ;;;
  call CallNewScyllaClient ;;;
  sc <- ask NewScyllaClientForLocalhost ;;
  match sc with
  | Err err => WriteHeader StatusInternalServerError ;;; hreturn
  | Ok scyllaClient =>
      defer (call CallClose)
        (call (CallPing localhost) ;;;
         match ScyllaClient.Ping scyllaClient localhost with
         | Err err => WriteHeader StatusServiceUnavailable ;;; hreturn
         | Ok _ => WriteHeader StatusOK
         end)
  end.
End ProbeEngine.

(** * The status engine (scylladbdatacenter controller) *)

(** ** Objects read by the controller

    The declarations of the API types are outside the sources; each record
    has the fields the code reads or writes. *)

Module OwnerReference.
Record t : Type := mk { UID : string; Controller : option bool }.
End OwnerReference.

Module Container.
Record t : Type := mk { Name : string; Image : string }.
End Container.

Module ContainerStatus.
Record t : Type := mk { Name : string; Ready : bool; Running : bool }.
End ContainerStatus.

Module Pod.
Record t : Type := mk {
  Name : string;
  OwnerReferences : list OwnerReference.t;
  Spec_Containers : list Container.t;
  Status_ContainerStatuses : list ContainerStatus.t
}.
End Pod.

Module StatefulSet.
Record t : Type := mk {
  Name : string;
  Namespace : string;
  UID : string;
  Generation : Z;                    (* int64 *)
  Labels : gmap string string;
  Spec_Replicas : option Z;          (* *int32 *)
  Status_ObservedGeneration : Z;     (* int64 *)
  Status_ReadyReplicas : Z;          (* int32 *)
  Status_AvailableReplicas : Z;
  Status_UpdatedReplicas : Z;
  Status_CurrentReplicas : Z
}.
End StatefulSet.

Module Condition.
Record t : Type := mk {
  Type_ : string;
  Status : string;                   (* metav1.ConditionStatus *)
  Reason : string;
  Message : string;
  ObservedGeneration : Z;
  LastTransitionTime : option Z      (* None is the zero time *)
}.
End Condition.

Definition ConditionTrue : string := "True".
Definition ConditionFalse : string := "False".

Module RackStatus.
Record t : Type := mk {
  Name : string;
  CurrentVersion : string;
  UpdatedVersion : string;
  Nodes : option Z;                  (* *int32, as the four below *)
  CurrentNodes : option Z;
  UpdatedNodes : option Z;
  ReadyNodes : option Z;
  AvailableNodes : option Z;
  Stale : option bool                (* *bool *)
}.
End RackStatus.

(** The status of a datacenter.  [Other] stands for whatever further fields
    the declaration has: the code under study names none of them. *)
Module ScyllaDBDatacenterStatus.
Record t {X : Type} : Type := mk {
  ObservedGeneration : option Z;     (* *int64 *)
  Conditions : list Condition.t;
  Racks : list RackStatus.t;
  Nodes : option Z;
  ReadyNodes : option Z;
  AvailableNodes : option Z;
  Other : X
}.
Arguments t : clear implicits.
Arguments mk {X}.

Definition setObservedGeneration {X} (g : option Z) (s : t X) : t X :=
  mk g (Conditions s) (Racks s) (Nodes s) (ReadyNodes s) (AvailableNodes s) (Other s).
Definition setConditions {X} (c : list Condition.t) (s : t X) : t X :=
  mk (ObservedGeneration s) c (Racks s) (Nodes s) (ReadyNodes s) (AvailableNodes s) (Other s).
Definition setRacks {X} (r : list RackStatus.t) (s : t X) : t X :=
  mk (ObservedGeneration s) (Conditions s) r (Nodes s) (ReadyNodes s) (AvailableNodes s) (Other s).
Definition setCounts {X} (n rn an : option Z) (s : t X) : t X :=
  mk (ObservedGeneration s) (Conditions s) (Racks s) n rn an (Other s).
End ScyllaDBDatacenterStatus.

Module RackSpec.
Record t : Type := mk { Name : string; Nodes : option Z }.
End RackSpec.

Module ScyllaDBDatacenter.
Record t {X : Type} : Type := mk {
  Namespace : string;
  Name : string;
  Generation : Z;                    (* int64 *)
  Spec_ScyllaDB_Image : string;
  Spec_Racks : list RackSpec.t;
  Status : ScyllaDBDatacenterStatus.t X
}.
Arguments t : clear implicits.
Arguments mk {X}.

Definition setStatus {X} (st : ScyllaDBDatacenterStatus.t X) (sdc : t X) : t X :=
  mk (Namespace sdc) (Name sdc) (Generation sdc) (Spec_ScyllaDB_Image sdc)
     (Spec_Racks sdc) st.
End ScyllaDBDatacenter.

#[global] Instance Condition_eq_dec : EqDecision Condition.t.
Proof. solve_decision. Defined.

#[global] Instance RackStatus_eq_dec : EqDecision RackStatus.t.
Proof. solve_decision. Defined.

#[global] Instance ScyllaDBDatacenterStatus_eq_dec {X} `{EqDecision X} :
  EqDecision (ScyllaDBDatacenterStatus.t X).
Proof. solve_decision. Defined.

(** ** What the controller imports from packages outside the sources

    [naming], [controllerhelpers], and the two constants of
    [scyllav1alpha1] and [internalapi]; taken as they are declared, with no
    assumption on what they compute.  [GetRackNodeCount] returns the pointee
    of its [*int32]. *)
Record Imports {X : Type} : Type := {
  RackNameLabel : string;
  StatefulSetNameForRack : RackSpec.t -> ScyllaDBDatacenter.t X -> string;
  MemberServiceName : RackSpec.t -> ScyllaDBDatacenter.t X -> Z -> string;
  PodNameFromService : Service.t -> string;
  ImageToVersion : string -> string * option error;
  ScyllaVersion : list Container.t -> result string;
  GetRackNodeCount : ScyllaDBDatacenter.t X -> string -> result Z;
  IsScyllaDBIgnitionContainerReady : Pod.t -> bool;
  IsDelayedVolumeMountContainerRunning : Pod.t -> bool;
  PrewarmedCondition : string;
  AsExpectedReason : string
}.
Arguments Imports : clear implicits.

(** The controller: the pod lister and the client that writes the status
    sub-resource. *)
Record Controller {X : Type} : Type := {
  podLister : string -> string -> result Pod.t;
  scyllaClient_UpdateStatus : ScyllaDBDatacenter.t X -> result (ScyllaDBDatacenter.t X)
}.
Arguments Controller : clear implicits.

(** ** apimachinery helpers *)

(** [metav1.GetControllerOfNoCopy]: the first owner reference whose
    [Controller] flag is set. *)
Definition GetControllerOfNoCopy (pod : Pod.t) : option OwnerReference.t :=
  List.find (fun ref => bool_decide (OwnerReference.Controller ref = Some true))
            (Pod.OwnerReferences pod).

(** [apimeta.FindStatusCondition] *)
Definition FindStatusCondition (conditions : list Condition.t) (conditionType : string)
  : option Condition.t :=
  List.find (fun c => bool_decide (Condition.Type_ c = conditionType)) conditions.

(** The update [apimeta.SetStatusCondition] makes to an existing condition:
    the transition time moves only when the status changes. *)
Definition updateCondition (now : Z) (existing newCondition : Condition.t) : Condition.t :=
  let changed := negb (bool_decide (Condition.Status existing = Condition.Status newCondition)) in
  Condition.mk
    (Condition.Type_ existing)
    (Condition.Status newCondition)
    (Condition.Reason newCondition)
    (Condition.Message newCondition)
    (Condition.ObservedGeneration newCondition)
    (if changed
     then match Condition.LastTransitionTime newCondition with
          | Some t => Some t
          | None => Some now
          end
     else Condition.LastTransitionTime existing).

(** [apimeta.SetStatusCondition], with the clock reading [now]. *)
Fixpoint SetStatusCondition (now : Z) (conditions : list Condition.t)
    (newCondition : Condition.t) : list Condition.t :=
  match conditions with
  | [] =>
      [Condition.mk
         (Condition.Type_ newCondition) (Condition.Status newCondition)
         (Condition.Reason newCondition) (Condition.Message newCondition)
         (Condition.ObservedGeneration newCondition)
         (match Condition.LastTransitionTime newCondition with
          | Some t => Some t
          | None => Some now
          end)]
  | c :: rest =>
      if bool_decide (Condition.Type_ c = Condition.Type_ newCondition)
      then updateCondition now c newCondition :: rest
      else c :: SetStatusCondition now rest newCondition
  end.

(** ** The controller's status functions *)

Section StatusEngine.
Context {X : Type} `{EqDecision X}.
Variable imports : Imports X.
Variable sdcc : Controller X.

Definition getScyllaVersion (sts : StatefulSet.t) : result string :=
  let firstMemberName := StatefulSet.Name sts +:+ "-0" in
  match podLister sdcc (StatefulSet.Namespace sts) firstMemberName with
  | Err err => Err err
  | Ok firstMember =>
      match GetControllerOfNoCopy firstMember with
      | None => Err (ErrString "foreign pod")
      | Some controllerRef =>
          if negb (bool_decide (OwnerReference.UID controllerRef = StatefulSet.UID sts))
          then Err (ErrString "foreign pod")
          else
            match ScyllaVersion imports (Pod.Spec_Containers firstMember) with
            | Err err => Err err
            | Ok version => Ok version
            end
      end
  end.

(** [calculateRackStatus]; [None] is the panic of [*sts.Spec.Replicas] on a
    nil pointer. *)
Definition calculateRackStatus (sdc : ScyllaDBDatacenter.t X)
    (sts : option StatefulSet.t) : option RackStatus.t :=
  match sts with
  | None =>
      Some (RackStatus.mk "" "" "" (Some 0) (Some 0) (Some 0) (Some 0) (Some 0) (Some true))
  | Some sts =>
      let name := default "" (StatefulSet.Labels sts !! RackNameLabel imports) in
      replicas ← StatefulSet.Spec_Replicas sts;
      let nodes := Some replicas in
      let stale :=
        bool_decide (StatefulSet.Status_ObservedGeneration sts < StatefulSet.Generation sts) in
      let scyllaDBImageVersion :=
        fst (ImageToVersion imports (ScyllaDBDatacenter.Spec_ScyllaDB_Image sdc)) in
      let currentVersion :=
        if bool_decide (is_Some nodes) && bool_decide (nodes = Some 0)
        then scyllaDBImageVersion
        else match getScyllaVersion sts with
             | Err err => ""
             | Ok version => version
             end in
      Some (RackStatus.mk name currentVersion scyllaDBImageVersion
              nodes
              (Some (StatefulSet.Status_CurrentReplicas sts))
              (Some (StatefulSet.Status_UpdatedReplicas sts))
              (Some (StatefulSet.Status_ReadyReplicas sts))
              (Some (StatefulSet.Status_AvailableReplicas sts))
              (Some stale))
  end.

(** The loop of [updateAggregatedStatusFields] over the racks still to add,
    with the three running sums; [None] is the panic of dereferencing a nil
    count. *)
Fixpoint aggregateLoop (racks : list RackStatus.t) (nodes ready available : Z)
  : option (Z * Z * Z) :=
  match racks with
  | [] => Some (nodes, ready, available)
  | rackStatus :: rest =>
      n ← RackStatus.Nodes rackStatus;
      r ← RackStatus.ReadyNodes rackStatus;
      a ← RackStatus.AvailableNodes rackStatus;
      aggregateLoop rest (int32_add nodes n) (int32_add ready r) (int32_add available a)
  end.

Definition updateAggregatedStatusFields (status : ScyllaDBDatacenterStatus.t X)
  : option (ScyllaDBDatacenterStatus.t X) :=
  '(nodes, ready, available) ← aggregateLoop (ScyllaDBDatacenterStatus.Racks status) 0 0 0;
  Some (ScyllaDBDatacenterStatus.setCounts (Some nodes) (Some ready) (Some available) status).

(** The loop of [calculateStatus] over the rack specifications still to
    visit, appending to [racks]. *)
Fixpoint calculateRacksLoop (sdc : ScyllaDBDatacenter.t X)
    (statefulSetMap : gmap string StatefulSet.t)
    (rackSpecs : list RackSpec.t) (racks : list RackStatus.t)
  : option (list RackStatus.t) :=
  match rackSpecs with
  | [] => Some racks
  | rack :: rest =>
      let stsName := StatefulSetNameForRack imports rack sdc in
      rackStatus ← calculateRackStatus sdc (statefulSetMap !! stsName);
      calculateRacksLoop sdc statefulSetMap rest (racks ++ [rackStatus])
  end.

Definition calculateStatus (sdc : ScyllaDBDatacenter.t X)
    (statefulSetMap : gmap string StatefulSet.t)
  : option (ScyllaDBDatacenterStatus.t X) :=
  let status := ScyllaDBDatacenter.Status sdc in
  let status :=
    ScyllaDBDatacenterStatus.setObservedGeneration
      (Some (ScyllaDBDatacenter.Generation sdc)) status in
  let status := ScyllaDBDatacenterStatus.setRacks [] status in
  racks ← calculateRacksLoop sdc statefulSetMap (ScyllaDBDatacenter.Spec_Racks sdc)
            (ScyllaDBDatacenterStatus.Racks status);
  updateAggregatedStatusFields (ScyllaDBDatacenterStatus.setRacks racks status).

(** The inner loop of [setPrewarmedStatusCondition],
    [for ord := int32(0); ord < *rackNodeCount; ord++], with [iterations]
    passes left; a [break] ends it with [prewarmed = false]. *)
Fixpoint prewarmedOrdLoop (sdc : ScyllaDBDatacenter.t X)
    (services : gmap string Service.t) (rack : RackSpec.t)
    (iterations : nat) (ord : Z) (prewarmed : bool) : bool :=
  match iterations with
  | O => prewarmed
  | S iterations' =>
      let svcName := MemberServiceName imports rack sdc ord in
      match services !! svcName with
      | None => false
      | Some svc =>
          let podName := PodNameFromService imports svc in
          match podLister sdcc (ScyllaDBDatacenter.Namespace sdc) podName with
          | Err err => false
          | Ok pod =>
              let prewarmed :=
                if negb (IsScyllaDBIgnitionContainerReady imports pod)
                   || negb (IsDelayedVolumeMountContainerRunning imports pod)
                then false else prewarmed in
              prewarmedOrdLoop sdc services rack iterations' (ord + 1) prewarmed
          end
      end
  end.

(** The outer loop over the racks; only a failing [GetRackNodeCount] leaves
    it early. *)
Fixpoint prewarmedRackLoop (sdc : ScyllaDBDatacenter.t X)
    (services : gmap string Service.t)
    (racks : list RackSpec.t) (prewarmed : bool) : bool :=
  match racks with
  | [] => prewarmed
  | rack :: rest =>
      match GetRackNodeCount imports sdc (RackSpec.Name rack) with
      | Err err => false
      | Ok rackNodeCount =>
          prewarmedRackLoop sdc services rest
            (prewarmedOrdLoop sdc services rack (Z.to_nat rackNodeCount) 0 prewarmed)
      end
  end.

Definition setPrewarmedStatusCondition (now : Z) (sdc : ScyllaDBDatacenter.t X)
    (status : ScyllaDBDatacenterStatus.t X) (services : gmap string Service.t)
  : ScyllaDBDatacenterStatus.t X :=
  let prewarmed :=
    prewarmedRackLoop sdc services (ScyllaDBDatacenter.Spec_Racks sdc) true in
  let condition :=
    if prewarmed
    then Condition.mk (PrewarmedCondition imports) ConditionTrue
           (AsExpectedReason imports) "" (ScyllaDBDatacenter.Generation sdc) None
    else Condition.mk (PrewarmedCondition imports) ConditionFalse
           "NotAllNodesPrewarmed" "Not all nodes are prewarmed yet."
           (ScyllaDBDatacenter.Generation sdc) None in
  ScyllaDBDatacenterStatus.setConditions
    (SetStatusCondition now (ScyllaDBDatacenterStatus.Conditions status) condition)
    status.

(** [updateStatus] returns its error and the objects it sent to
    [UpdateStatus], oldest first; [None] is a panic inside
    [updateAggregatedStatusFields].  [apiequality.Semantic.DeepEqual] is
    equality of the values. *)
Definition updateStatus (currentSC : ScyllaDBDatacenter.t X)
    (status : ScyllaDBDatacenterStatus.t X)
  : option (option error * list (ScyllaDBDatacenter.t X)) :=
  if bool_decide (ScyllaDBDatacenter.Status currentSC = status)
  then Some (None, [])
  else
    let sdc := ScyllaDBDatacenter.setStatus status currentSC in
    aggregated ← updateAggregatedStatusFields (ScyllaDBDatacenter.Status sdc);
    let sdc := ScyllaDBDatacenter.setStatus aggregated sdc in
    match scyllaClient_UpdateStatus sdcc sdc with
    | Err err => Some (Some err, [sdc])
    | Ok _ => Some (None, [sdc])
    end.

(** Modelled from the spec: the caller of these functions is not among the
    sources.  One pass recomputes the rack statuses and the aggregated
    counts, sets the Prewarmed condition, and hands the result to
    [updateStatus] (section 4.3). *)
Definition computeStatus (now : Z) (sdc : ScyllaDBDatacenter.t X)
    (statefulSetMap : gmap string StatefulSet.t) (services : gmap string Service.t)
  : option (ScyllaDBDatacenterStatus.t X) :=
  status ← calculateStatus sdc statefulSetMap;
  Some (setPrewarmedStatusCondition now sdc status services).

End StatusEngine.

(** * The vocabulary of the properties *)

(** ** Probe engine *)

Section ProbeVocabulary.
Variable NodeMaintenanceLabel : string.

(** Every configured path exists. *)
Definition awaitPathsPass (w : World) (p : Prober) : Prop :=
  forall path, path ∈ awaitPaths p -> os_Stat w path = None.

(** Every configured path is reported absent. *)
Definition awaitPathsAbsent (w : World) (p : Prober) : Prop :=
  forall path, path ∈ awaitPaths p ->
    exists err, os_Stat w path = Some err /\ errors_Is_NotExist err = true.

(** The errors [awaitPathsExist] collects: one wrapped error for each path
    whose stat fails for a reason other than absence, in the order of the
    paths. *)
Definition statErrors (w : World) (paths : list string) : list error :=
  omap (fun path =>
          match os_Stat w path with
          | Some err =>
              if errors_Is_NotExist err then None
              else Some (ErrWrap ("can't stat path " +:+ fmt_q path) err)
          | None => None
          end) paths.

(** No path is reported absent. *)
Definition noneAbsent (w : World) (paths : list string) : bool :=
  forallb (fun path =>
             match os_Stat w path with
             | Some err => negb (errors_Is_NotExist err)
             | None => true
             end) paths.

Definition addCalls (cs : list Call) (r : Run) : Run :=
  {| written := written r; calls := calls r ++ cs |}.

(** The calls of the two precondition checks. *)
Definition lookupCalls (p : Prober) : list Call :=
  map CallStat (awaitPaths p) ++ [CallGetService (namespace p) (serviceName p)].

(** What a handler wrote, from an empty run. *)
Definition wrote (h : Handler unit) (w : World) : list Z := written (runHandler h w).

(** The same world with another answer of the client constructor. *)
Definition withClient (c : result ScyllaClient.t) (w : World) : World :=
  {| os_Stat := os_Stat w; NewScyllaClientForLocalhost := c |}.

(** The node is under maintenance: the lookup of the exposed service
    succeeds and the service carries the label. *)
Definition underMaintenance (p : Prober) : Prop :=
  exists svc, serviceLister p (namespace p) (serviceName p) = Ok svc /\
              is_Some (Service.Labels svc !! NodeMaintenanceLabel).

(** The lookup succeeds and the service does not carry the label. *)
Definition notUnderMaintenance (p : Prober) : Prop :=
  exists svc, serviceLister p (namespace p) (serviceName p) = Ok svc /\
              Service.Labels svc !! NodeMaintenanceLabel = None.

(** The entry is the one [Readyz] looks for. *)
Definition isLocalUN (hostID : string) (s : NodeStatusInfo.t) : bool :=
  bool_decide (NodeStatusInfo.HostID s = hostID) && NodeStatusInfo.IsUN s.

(** The code the scan of the node statuses writes before returning, if it
    returns from inside the loop. *)
Definition scanOutcome (c : ScyllaClient.t) (hostID : string)
    (l : list NodeStatusInfo.t) : option Z :=
  if existsb (isLocalUN hostID) l
  then match ScyllaClient.IsNativeTransportEnabled c localhost with
       | Err _ => Some StatusServiceUnavailable
       | Ok true => Some StatusOK
       | Ok false => None
       end
  else None.

End ProbeVocabulary.

(** ** Status engine *)

Definition sumZ (l : list Z) : Z := foldr Z.add 0 l.

(** Every workload object of the map has its replica count set, as the
    objects the API server returns have. *)
Definition replicasSet (statefulSetMap : gmap string StatefulSet.t) : Prop :=
  forall name sts, statefulSetMap !! name = Some sts ->
    is_Some (StatefulSet.Spec_Replicas sts).

(** The three counts of a rack status that are aggregated are set. *)
Definition countsSet (rack : RackStatus.t) : Prop :=
  is_Some (RackStatus.Nodes rack) /\
  is_Some (RackStatus.ReadyNodes rack) /\
  is_Some (RackStatus.AvailableNodes rack).

(** The sum of a list as the code computes it: from zero, one [int32]
    addition per element. *)
Definition int32_sum (l : list Z) : Z := foldl int32_add 0 l.

Section StatusVocabulary.
Context {X : Type}.
Variable imports : Imports X.
Variable sdcc : Controller X.

(** The aggregation invariant of a datacenter status: each aggregated count
    is the [int32] sum of that count over the racks of the status. *)
Definition countsAggregated (st : ScyllaDBDatacenterStatus.t X) : Prop :=
  exists ns rs avs,
    mapM RackStatus.Nodes (ScyllaDBDatacenterStatus.Racks st) = Some ns /\
    mapM RackStatus.ReadyNodes (ScyllaDBDatacenterStatus.Racks st) = Some rs /\
    mapM RackStatus.AvailableNodes (ScyllaDBDatacenterStatus.Racks st) = Some avs /\
    ScyllaDBDatacenterStatus.Nodes st = Some (int32_sum ns) /\
    ScyllaDBDatacenterStatus.ReadyNodes st = Some (int32_sum rs) /\
    ScyllaDBDatacenterStatus.AvailableNodes st = Some (int32_sum avs).

(** The imported helpers read the name and the specification of a
    datacenter, not its status. *)
Definition importsIgnoreStatus : Prop :=
  forall (sdc : ScyllaDBDatacenter.t X) (st : ScyllaDBDatacenterStatus.t X),
    (forall rack, StatefulSetNameForRack imports rack (ScyllaDBDatacenter.setStatus st sdc)
                  = StatefulSetNameForRack imports rack sdc) /\
    (forall rack ord, MemberServiceName imports rack (ScyllaDBDatacenter.setStatus st sdc) ord
                      = MemberServiceName imports rack sdc ord) /\
    (forall name, GetRackNodeCount imports (ScyllaDBDatacenter.setStatus st sdc) name
                  = GetRackNodeCount imports sdc name).

(** The lookup of the service of member [ord], or of the pod behind it,
    fails. *)
Definition memberLookupFails (sdc : ScyllaDBDatacenter.t X)
    (services : gmap string Service.t) (rack : RackSpec.t) (ord : Z) : Prop :=
  services !! MemberServiceName imports rack sdc ord = None \/
  exists svc err,
    services !! MemberServiceName imports rack sdc ord = Some svc /\
    podLister sdcc (ScyllaDBDatacenter.Namespace sdc) (PodNameFromService imports svc)
      = Err err.

(** A lookup the scan of [rack] needs fails: its node count, or the service
    or pod of one of its members. *)
Definition rackLookupFails (sdc : ScyllaDBDatacenter.t X)
    (services : gmap string Service.t) (rack : RackSpec.t) : Prop :=
  match GetRackNodeCount imports sdc (RackSpec.Name rack) with
  | Err _ => True
  | Ok rackNodeCount =>
      exists ord, 0 <= ord < rackNodeCount /\ memberLookupFails sdc services rack ord
  end.

(** The condition [setPrewarmedStatusCondition] leaves when its scan ends
    with [prewarmed = false]. *)
Definition notPrewarmed (conditions : list Condition.t) : Prop :=
  exists c, FindStatusCondition conditions (PrewarmedCondition imports) = Some c /\
            Condition.Status c = ConditionFalse /\
            Condition.Reason c = "NotAllNodesPrewarmed" /\
            Condition.Message c = "Not all nodes are prewarmed yet.".

End StatusVocabulary.

(** * Concrete probes and clusters used by the examples *)

Module Sample.

Definition maintenanceLabel : string := "scylla/node-maintenance".

Definition un (host : string) : NodeStatusInfo.t :=
  NodeStatusInfo.mk "10.0.0.1" host NodeStatusUp NodeStateNormal.

Definition joining (host : string) : NodeStatusInfo.t :=
  NodeStatusInfo.mk "10.0.0.2" host NodeStatusUp NodeStateJoining.

Definition client (statuses : result (list NodeStatusInfo.t)) (hostID : result string)
    (transport : result bool) (ping : result Z) : ScyllaClient.t :=
  {| ScyllaClient.Status := fun _ => statuses;
     ScyllaClient.GetLocalHostId := fun _ _ => hostID;
     ScyllaClient.IsNativeTransportEnabled := fun _ => transport;
     ScyllaClient.Ping := fun _ => ping |}.

Definition goodClient : ScyllaClient.t :=
  client (Ok [joining "h2"; un "h1"]) (Ok "h1") (Ok true) (Ok 1).

Definition refused : error := ErrString "connection refused".

(** A filesystem on which every path exists. *)
Definition allPresent (c : result ScyllaClient.t) : World :=
  {| os_Stat := fun _ => None; NewScyllaClientForLocalhost := c |}.

(** A filesystem on which no path exists. *)
Definition nonePresent (c : result ScyllaClient.t) : World :=
  {| os_Stat := fun path => Some (ErrWrap ("stat " +:+ path) ErrNotExist);
     NewScyllaClientForLocalhost := c |}.

(** A filesystem on which [/denied] cannot be inspected and nothing else
    exists. *)
Definition oneDenied (c : result ScyllaClient.t) : World :=
  {| os_Stat := fun path =>
       if bool_decide (path = "/denied")
       then Some (ErrWrap ("stat " +:+ path) (ErrString "permission denied"))
       else Some (ErrWrap ("stat " +:+ path) ErrNotExist);
     NewScyllaClientForLocalhost := c |}.

Definition prober (svc : result Service.t) (paths : list string) : Prober :=
  {| namespace := "scylla"; serviceName := "dc-rack-0";
     serviceLister := fun _ _ => svc; awaitPaths := paths |}.

Definition plainService : Service.t := Service.mk "dc-rack-0" ∅.

Definition maintenanceService : Service.t :=
  Service.mk "dc-rack-0" {[ maintenanceLabel := "" ]}.

End Sample.

(** A datacenter [dc] of two racks: rack [a] has its workload object, with
    three replicas all ready and its generation observed; rack [b] has no
    workload object yet.  The further fields of a status are a string. *)
Module SampleCluster.

Definition versionOfImage (image : string) : string * option error :=
  match String.index 0 ":" image with
  | Some i => (String.substring (S i) (String.length image - S i) image, None)
  | None => ("", Some (ErrString ("invalid image name: " +:+ image)))
  end.

Definition imports : Imports string :=
  {| RackNameLabel := "scylla/rack";
     StatefulSetNameForRack := fun rack sdc =>
       ScyllaDBDatacenter.Name sdc +:+ "-" +:+ RackSpec.Name rack;
     MemberServiceName := fun rack sdc ord =>
       ScyllaDBDatacenter.Name sdc +:+ "-" +:+ RackSpec.Name rack +:+ "-" +:+ pretty ord;
     PodNameFromService := Service.Name;
     ImageToVersion := versionOfImage;
     ScyllaVersion := fun containers =>
       match List.find (fun c => bool_decide (Container.Name c = "scylla")) containers with
       | Some c =>
           match versionOfImage (Container.Image c) with
           | (version, None) => Ok version
           | (_, Some err) => Err err
           end
       | None => Err (ErrString "no scylla container")
       end;
     GetRackNodeCount := fun sdc rackName =>
       match List.find (fun rack => bool_decide (RackSpec.Name rack = rackName))
                       (ScyllaDBDatacenter.Spec_Racks sdc) with
       | Some rack => Ok (default 0 (RackSpec.Nodes rack))
       | None => Err (ErrString ("can't find rack " +:+ rackName))
       end;
     IsScyllaDBIgnitionContainerReady := fun pod =>
       existsb (fun cs => bool_decide (ContainerStatus.Name cs = "scylladb-ignition")
                          && ContainerStatus.Ready cs)
               (Pod.Status_ContainerStatuses pod);
     IsDelayedVolumeMountContainerRunning := fun pod =>
       existsb (fun cs => bool_decide (ContainerStatus.Name cs = "delayed-volume-mount")
                          && ContainerStatus.Running cs)
               (Pod.Status_ContainerStatuses pod);
     PrewarmedCondition := "Prewarmed";
     AsExpectedReason := "AsExpected" |}.

Definition member (name : string) (ignitionReady : bool) : Pod.t :=
  Pod.mk name
    [OwnerReference.mk "uid-a" (Some true)]
    [Container.mk "scylla" "scylladb/scylla:6.2.0"]
    [ContainerStatus.mk "scylladb-ignition" ignitionReady true;
     ContainerStatus.mk "delayed-volume-mount" false true].

(** A controller over the given pods; its writes succeed. *)
Definition controller (pods : gmap string Pod.t) : Controller string :=
  {| podLister := fun _ name =>
       match pods !! name with
       | Some pod => Ok pod
       | None => Err (ErrString ("pod not found: " +:+ name))
       end;
     scyllaClient_UpdateStatus := fun sdc => Ok sdc |}.

Definition allReady : gmap string Pod.t :=
  {[ "dc-a-0" := member "dc-a-0" true;
     "dc-a-1" := member "dc-a-1" true;
     "dc-a-2" := member "dc-a-2" true ]}.

(** Member 1 of rack [a] has no pod. *)
Definition oneMissing : gmap string Pod.t :=
  {[ "dc-a-0" := member "dc-a-0" true;
     "dc-a-2" := member "dc-a-2" true ]}.

(** Member 1 of rack [a] has a pod whose ignition container is not ready. *)
Definition oneNotReady : gmap string Pod.t :=
  {[ "dc-a-0" := member "dc-a-0" true;
     "dc-a-1" := member "dc-a-1" false;
     "dc-a-2" := member "dc-a-2" true ]}.

Definition services : gmap string Service.t :=
  {[ "dc-a-0" := Service.mk "dc-a-0" ∅;
     "dc-a-1" := Service.mk "dc-a-1" ∅;
     "dc-a-2" := Service.mk "dc-a-2" ∅ ]}.

Definition rackA : RackSpec.t := RackSpec.mk "a" (Some 3).
Definition rackB : RackSpec.t := RackSpec.mk "b" (Some 0).

Definition stsA : StatefulSet.t :=
  StatefulSet.mk "dc-a" "scylla" "uid-a" 4 {[ "scylla/rack" := "a" ]} (Some 3) 4 3 3 3 3.

Definition statefulSetMap : gmap string StatefulSet.t := {[ "dc-a" := stsA ]}.

Definition available : Condition.t :=
  Condition.mk "Available" ConditionTrue "AsExpected" "" 6 (Some 1000).

(** The status stored before the pass: counts that do not match the racks,
    one condition, and a further field. *)
Definition previous : ScyllaDBDatacenterStatus.t string :=
  ScyllaDBDatacenterStatus.mk (Some 6) [available] [] (Some 9) None None "kept".

Definition dc : ScyllaDBDatacenter.t string :=
  ScyllaDBDatacenter.mk "scylla" "dc" 7 "scylladb/scylla:6.2.0" [rackA; rackB] previous.

Definition statusA : RackStatus.t :=
  RackStatus.mk "a" "6.2.0" "6.2.0" (Some 3) (Some 3) (Some 3) (Some 3) (Some 3) (Some false).

Definition statusB : RackStatus.t :=
  RackStatus.mk "" "" "" (Some 0) (Some 0) (Some 0) (Some 0) (Some 0) (Some true).

(** What [calculateStatus] returns for [dc]. *)
Definition calculated : ScyllaDBDatacenterStatus.t string :=
  ScyllaDBDatacenterStatus.mk (Some 7) [available] [statusA; statusB]
    (Some 3) (Some 3) (Some 3) "kept".

(** What a pass at time 2000 computes for [dc] when all pods are ready. *)
Definition computed : ScyllaDBDatacenterStatus.t string :=
  ScyllaDBDatacenterStatus.mk (Some 7)
    [available; Condition.mk "Prewarmed" ConditionTrue "AsExpected" "" 7 (Some 2000)]
    [statusA; statusB] (Some 3) (Some 3) (Some 3) "kept".

End SampleCluster.

(** * Vocabulary of the further properties *)

(** ** Runs of the probes *)

(** The stats of the await-paths check. *)
Definition statCalls (p : Prober) : list Call := map CallStat (awaitPaths p).

(** The codes a probe writes. *)
Definition statusCodes : list Z :=
  [StatusOK; StatusInternalServerError; StatusServiceUnavailable].

(** The calls [Readyz] makes on its client, other than closing it. *)
Definition readyzApiCall (c : Call) : bool :=
  match c with
  | CallStatus _ | CallGetLocalHostId _ _ | CallIsNativeTransportEnabled _ => true
  | _ => false
  end.

(** The call [Healthz] makes on its client, other than closing it. *)
Definition healthzApiCall (c : Call) : bool :=
  match c with
  | CallPing _ => true
  | _ => false
  end.

(** The calls of the precondition checks and of the life of the client. *)
Definition lifecycleCall (c : Call) : bool :=
  match c with
  | CallStat _ | CallGetService _ _ | CallNewScyllaClient | CallClose => true
  | _ => false
  end.

(** The four ways a probe can run: it returns after the stats; after the
    service lookup; after a client could not be built; or after it built a
    client, made calls on it and closed it.  It writes one code in each. *)
Definition probeRun (api : Call -> bool) (p : Prober) (w : World) (r : Run) : Prop :=
  (exists code, code ∈ statusCodes /\
     r = {| written := [code]; calls := statCalls p |}) \/
  (exists code, code ∈ statusCodes /\
     r = {| written := [code]; calls := lookupCalls p |}) \/
  (exists e, NewScyllaClientForLocalhost w = Err e /\
     r = {| written := [StatusInternalServerError];
            calls := lookupCalls p ++ [CallNewScyllaClient] |}) \/
  (exists c code apiCalls,
     NewScyllaClientForLocalhost w = Ok c /\ code ∈ statusCodes /\
     forallb api apiCalls = true /\
     r = {| written := [code];
            calls := lookupCalls p ++ [CallNewScyllaClient] ++ apiCalls ++ [CallClose] |}).

(** ** Rack statuses and the Prewarmed scan *)

(** The status of a rack without a workload object. *)
Definition zeroRackStatus : RackStatus.t :=
  RackStatus.mk "" "" "" (Some 0) (Some 0) (Some 0) (Some 0) (Some 0) (Some true).

(** The conditions of a type other than [conditionType], in their order. *)
Definition otherConditions (conditionType : string) (conditions : list Condition.t)
  : list Condition.t :=
  List.filter (fun c => negb (bool_decide (Condition.Type_ c = conditionType))) conditions.

Section StatusCoverageVocabulary.
Context {X : Type}.
Variable imports : Imports X.
Variable sdcc : Controller X.

(** The status [calculateStatus] computes for one rack specification. *)
Definition rackStatusOf (sdc : ScyllaDBDatacenter.t X)
    (statefulSetMap : gmap string StatefulSet.t) (rack : RackSpec.t)
  : option RackStatus.t :=
  calculateRackStatus imports sdcc sdc
    (statefulSetMap !! StatefulSetNameForRack imports rack sdc).

(** Member [ord] of the rack has its service, the pod behind the service
    exists, its ignition container is ready and its delayed-volume-mount
    container runs. *)
Definition memberPrewarmed (sdc : ScyllaDBDatacenter.t X)
    (services : gmap string Service.t) (rack : RackSpec.t) (ord : Z) : Prop :=
  exists svc pod,
    services !! MemberServiceName imports rack sdc ord = Some svc /\
    podLister sdcc (ScyllaDBDatacenter.Namespace sdc) (PodNameFromService imports svc)
      = Ok pod /\
    IsScyllaDBIgnitionContainerReady imports pod = true /\
    IsDelayedVolumeMountContainerRunning imports pod = true.

(** The node count of the rack is known and every member below it is
    prewarmed. *)
Definition rackPrewarmed (sdc : ScyllaDBDatacenter.t X)
    (services : gmap string Service.t) (rack : RackSpec.t) : Prop :=
  exists rackNodeCount,
    GetRackNodeCount imports sdc (RackSpec.Name rack) = Ok rackNodeCount /\
    forall ord, 0 <= ord < rackNodeCount -> memberPrewarmed sdc services rack ord.

End StatusCoverageVocabulary.

(** * The fake client of RemoteOwner objects (generated code)

    The second source file: the [List] method of [FakeRemoteOwners], which
    is the one that computes on what the object tracker returns.  The
    tracker ([Fake.Invokes]), the extraction of the label selector from the
    list options and the selectors themselves belong to client-go and
    apimachinery; they are fields of the fake and of the selector.  A panic
    of the type assertion is [None]. *)

Module RemoteOwner.
Record t : Type := mk { Name : string; Namespace : string; Labels : gmap string string }.
End RemoteOwner.

Module RemoteOwnerList.
Record t : Type := mk { ListMeta : string; Items : list RemoteOwner.t }.
End RemoteOwnerList.

(** [labels.Selector], as its [Matches] method. *)
Definition Selector : Type := gmap string string -> bool.

(** [labels.Everything()] *)
Definition Everything : Selector := fun _ => true.

Record ListOptions : Type := { LabelSelector : string; FieldSelector : string }.

(** What the tracker can give back: [runtime.Object] values. *)
Inductive Object : Type :=
| ObjRemoteOwner (o : RemoteOwner.t)
| ObjRemoteOwnerList (l : RemoteOwnerList.t)
| ObjOther.

(** [testing.NewListAction(resource, kind, namespace, opts)] *)
Record ListAction : Type := {
  action_resource : string;
  action_kind : string;
  action_namespace : string;
  action_opts : ListOptions
}.

Record FakeRemoteOwners : Type := {
  Fake_Invokes : ListAction -> Object -> option Object * option error;
  ExtractFromListOptions : ListOptions -> option Selector;
  ns : string
}.

Definition remoteownersResource : string := "remoteowners".
Definition remoteownersKind : string := "RemoteOwner".

Definition FakeRemoteOwners_List (c : FakeRemoteOwners) (opts : ListOptions)
  : option (option RemoteOwnerList.t * option error) :=
  let '(obj, err) :=
    Fake_Invokes c
      {| action_resource := remoteownersResource; action_kind := remoteownersKind;
         action_namespace := ns c; action_opts := opts |}
      (ObjRemoteOwnerList (RemoteOwnerList.mk "" [])) in
  match obj with
  | None => Some (None, err)
  | Some obj =>
      let label :=
        match ExtractFromListOptions c opts with
        | Some label => label
        | None => Everything
        end in
      match obj with
      | ObjRemoteOwnerList tracked =>
          let items :=
            List.filter (fun item => label (RemoteOwner.Labels item))
                        (RemoteOwnerList.Items tracked) in
          Some (Some (RemoteOwnerList.mk (RemoteOwnerList.ListMeta tracked) items), err)
      | _ => None
      end
  end.

(** A datacenter of two racks whose workload objects ask for 2^30 replicas
    each. *)
Module SampleOverflow.

Definition wide (name uid : string) : StatefulSet.t :=
  StatefulSet.mk name "scylla" uid 4 ∅ (Some 1073741824) 4 0 0 0 0.

Definition statefulSetMap : gmap string StatefulSet.t :=
  {[ "dc-a" := wide "dc-a" "uid-a"; "dc-b" := wide "dc-b" "uid-b" ]}.

Definition dc : ScyllaDBDatacenter.t string :=
  ScyllaDBDatacenter.mk "scylla" "dc" 7 "scylladb/scylla:6.2.0"
    [RackSpec.mk "a" (Some 1073741824); RackSpec.mk "b" (Some 1073741824)]
    SampleCluster.previous.

End SampleOverflow.

(** ** Further concrete inputs *)

Module SampleMore.

Definition conflict : error := ErrString "the object has been modified".

(** A controller over the given pods whose writes fail. *)
Definition failingController (pods : gmap string Pod.t) : Controller string :=
  {| podLister := podLister (SampleCluster.controller pods);
     scyllaClient_UpdateStatus := fun _ => Err conflict |}.

(** The computed status of [SampleCluster.dc] with aggregated counts that
    do not match its racks. *)
Definition miscounted : ScyllaDBDatacenterStatus.t string :=
  ScyllaDBDatacenterStatus.setCounts (Some 9) None None SampleCluster.calculated.

(** [SampleCluster.dc] once the calculated status is stored. *)
Definition storedDc : ScyllaDBDatacenter.t string :=
  ScyllaDBDatacenter.setStatus SampleCluster.calculated SampleCluster.dc.

Definition owner (name : string) (app : string) : RemoteOwner.t :=
  RemoteOwner.mk name "scylla" {[ "app" := app ]}.

Definition tracked : RemoteOwnerList.t :=
  RemoteOwnerList.mk "rv-12" [owner "a" "scylla"; owner "b" "manager"; owner "c" "scylla"].

(** A fake whose tracker holds [tracked] and whose list options select the
    objects labelled [app=scylla]. *)
Definition fake : FakeRemoteOwners :=
  {| Fake_Invokes := fun _ _ => (Some (ObjRemoteOwnerList tracked), None);
     ExtractFromListOptions := fun _ =>
       Some (fun labels => bool_decide (labels !! "app" = Some "scylla"));
     ns := "scylla" |}.

End SampleMore.

(** * Properties of the probe engine *)

Section ProbeProperties.
Variable NodeMaintenanceLabel : string.

Lemma addCalls_nil r : addCalls [] r = r.
Proof. destruct r; unfold addCalls; simpl. by rewrite app_nil_r. Qed.

Lemma addCalls_app cs1 cs2 r : addCalls cs2 (addCalls cs1 r) = addCalls (cs1 ++ cs2) r.
Proof. unfold addCalls; simpl. by rewrite app_assoc. Qed.

Lemma awaitPathsLoop_run paths : forall ready errs w r,
  awaitPathsLoop paths ready errs w r =
    (Some (ready && noneAbsent w paths, errs ++ statErrors w paths),
     addCalls (map CallStat paths) r).
Proof.
  induction paths as [|path rest IH]; intros ready errs w r.
  - simpl. by rewrite andb_true_r, app_nil_r, addCalls_nil.
  - cbn [awaitPathsLoop]. unfold hbind at 1. unfold call at 1.
    unfold hbind at 1. unfold ask at 1.
    unfold statErrors, noneAbsent. cbn [omap list_omap forallb map].
    fold (statErrors w rest). fold (noneAbsent w rest).
    destruct (os_Stat w path) as [err|].
    + destruct (errors_Is_NotExist err); cbn [negb].
      * rewrite IH. cbn [andb]. rewrite andb_false_r.
        f_equal. unfold addCalls; simpl. by rewrite <- app_assoc.
      * rewrite IH. cbn [andb]. rewrite <- app_assoc.
        f_equal. unfold addCalls; simpl. by rewrite <- app_assoc.
    + rewrite IH. cbn [andb]. f_equal.
      unfold addCalls; simpl. by rewrite <- app_assoc.
Qed.

Lemma awaitPathsExist_run p w r :
  awaitPathsExist p w r =
    (Some (match NewAggregate (statErrors w (awaitPaths p)) with
           | Some err => (false, Some err)
           | None => (noneAbsent w (awaitPaths p), None)
           end),
     addCalls (map CallStat (awaitPaths p)) r).
Proof.
  unfold awaitPathsExist, hbind. rewrite awaitPathsLoop_run. cbn [fst snd app andb].
  destruct (NewAggregate _); reflexivity.
Qed.

Lemma statErrors_elem w paths e :
  e ∈ statErrors w paths <->
  exists path err, path ∈ paths /\ os_Stat w path = Some err /\
    errors_Is_NotExist err = false /\
    e = ErrWrap ("can't stat path " +:+ fmt_q path) err.
Proof.
  unfold statErrors. rewrite list_elem_of_omap. split.
  - intros (path & Hin & Hf). exists path.
    destruct (os_Stat w path) as [err|]; [|discriminate].
    exists err. destruct (errors_Is_NotExist err) eqn:E; [discriminate|].
    injection Hf as <-. auto.
  - intros (path & err & Hin & Hs & Hn & ->). exists path. split; [done|].
    by rewrite Hs, Hn.
Qed.

Lemma statErrors_nil w paths :
  (forall path err, path ∈ paths -> os_Stat w path = Some err ->
     errors_Is_NotExist err = true) ->
  statErrors w paths = [].
Proof.
  intros Hall. destruct (statErrors w paths) as [|e l] eqn:E; [done|].
  assert (He : e ∈ statErrors w paths) by (rewrite E; left).
  apply statErrors_elem in He as (path & err & Hin & Hs & Hn & _).
  rewrite (Hall _ _ Hin Hs) in Hn. discriminate.
Qed.

Lemma awaitPathsPass_run w p r :
  awaitPathsPass w p ->
  awaitPathsExist p w r = (Some (true, None), addCalls (map CallStat (awaitPaths p)) r).
Proof.
  intros Hp. rewrite awaitPathsExist_run.
  rewrite statErrors_nil.
  2:{ intros path err Hin Hs. rewrite (Hp _ Hin) in Hs. discriminate. }
  cbn [NewAggregate]. do 3 f_equal.
  unfold noneAbsent. apply forallb_forall. intros path Hin.
  apply list_elem_of_In in Hin. by rewrite (Hp _ Hin).
Qed.

Lemma awaitPathsAbsent_run w p r :
  awaitPaths p <> [] -> awaitPathsAbsent w p ->
  awaitPathsExist p w r = (Some (false, None), addCalls (map CallStat (awaitPaths p)) r).
Proof.
  intros Hne Ha. rewrite awaitPathsExist_run.
  rewrite statErrors_nil.
  2:{ intros path err Hin Hs. destruct (Ha _ Hin) as (err' & Hs' & Hn). congruence. }
  cbn [NewAggregate]. do 3 f_equal.
  destruct (awaitPaths p) as [|path rest] eqn:E; [done|].
  unfold noneAbsent. cbn [forallb].
  destruct (Ha path) as (err & -> & ->); [rewrite E; left|]. done.
Qed.

Lemma awaitPathsError_run w p r :
  (exists path err, path ∈ awaitPaths p /\ os_Stat w path = Some err /\
     errors_Is_NotExist err = false) ->
  awaitPathsExist p w r =
    (Some (false, Some (ErrAggregate (statErrors w (awaitPaths p)))),
     addCalls (map CallStat (awaitPaths p)) r).
Proof.
  intros (path & err & Hin & Hs & Hn). rewrite awaitPathsExist_run.
  destruct (statErrors w (awaitPaths p)) as [|e l] eqn:E; [|done].
  assert (He : ErrWrap ("can't stat path " +:+ fmt_q path) err ∈ statErrors w (awaitPaths p)).
  { apply statErrors_elem. eauto 10. }
  rewrite E in He. by apply elem_of_nil in He.
Qed.

Lemma hbind_eq {A B} (m : Handler A) (k : A -> Handler B) w r :
  hbind m k w r =
    match m w r with
    | (Some a, r') => k a w r'
    | (None, r') => (None, r')
    end.
Proof. reflexivity. Qed.

(** C8.  With a non-empty await-paths list whose every stat reports the path
    absent, [Readyz] writes 503 and [Healthz] writes 200.  If some stat fails
    for another reason, [awaitPathsExist] returns one aggregate that holds a
    wrapped error for every such path, and both handlers write 500. *)
Theorem await_paths_outcomes (p : Prober) (w : World) :
  (awaitPaths p <> [] -> awaitPathsAbsent w p ->
     wrote (Readyz NodeMaintenanceLabel p) w = [StatusServiceUnavailable] /\
     wrote (Healthz NodeMaintenanceLabel p) w = [StatusOK]) /\
  ((exists path err, path ∈ awaitPaths p /\ os_Stat w path = Some err /\
      errors_Is_NotExist err = false) ->
     fst (awaitPathsExist p w emptyRun)
       = Some (false, Some (ErrAggregate (statErrors w (awaitPaths p)))) /\
     (forall path err, path ∈ awaitPaths p -> os_Stat w path = Some err ->
        errors_Is_NotExist err = false ->
        ErrWrap ("can't stat path " +:+ fmt_q path) err ∈ statErrors w (awaitPaths p)) /\
     wrote (Readyz NodeMaintenanceLabel p) w = [StatusInternalServerError] /\
     wrote (Healthz NodeMaintenanceLabel p) w = [StatusInternalServerError]).
Proof.
  split.
  - intros Hne Ha. unfold wrote, runHandler, Readyz, Healthz.
    rewrite !hbind_eq, !(awaitPathsAbsent_run w p _ Hne Ha). split; reflexivity.
  - intros Hex. rewrite (awaitPathsError_run w p _ Hex).
    split; [reflexivity|]. split.
    { intros path err Hin Hs Hn. apply statErrors_elem. eauto 10. }
    unfold wrote, runHandler, Readyz, Healthz.
    rewrite !hbind_eq, !(awaitPathsError_run w p _ Hex). split; reflexivity.
Qed.

Lemma isNodeUnderMaintenance_run p w r :
  isNodeUnderMaintenance NodeMaintenanceLabel p w r =
    (Some (match serviceLister p (namespace p) (serviceName p) with
           | Err err => (false, Some err)
           | Ok svc =>
               (bool_decide (is_Some (Service.Labels svc !! NodeMaintenanceLabel)), None)
           end),
     addCalls [CallGetService (namespace p) (serviceName p)] r).
Proof.
  unfold isNodeUnderMaintenance. rewrite hbind_eq. cbn [call].
  destruct (serviceLister p (namespace p) (serviceName p)); reflexivity.
Qed.

Ltac hsimpl :=
  cbv [hbind hret hreturn call ask WriteHeader whenReturn defer]; simpl.

Ltac probe_prefix Hpass :=
  unfold wrote, runHandler, Readyz, Healthz; hsimpl;
  rewrite ?(awaitPathsPass_run _ _ _ Hpass); hsimpl;
  rewrite ?isNodeUnderMaintenance_run; hsimpl.

(** C9.  When the await-paths check passes and the exposed service carries
    the maintenance label, [Readyz] writes 503 and [Healthz] writes 200; the
    only calls made are the stats and the service lookup, so no client of
    the database API is created and the run is the same whatever the client
    constructor would answer. *)
Theorem maintenance_outcomes (p : Prober) (w : World) :
  awaitPathsPass w p -> underMaintenance NodeMaintenanceLabel p ->
  runHandler (Readyz NodeMaintenanceLabel p) w
    = {| written := [StatusServiceUnavailable]; calls := lookupCalls p |} /\
  runHandler (Healthz NodeMaintenanceLabel p) w
    = {| written := [StatusOK]; calls := lookupCalls p |} /\
  (CallNewScyllaClient ∉ lookupCalls p) /\
  (forall c,
     runHandler (Readyz NodeMaintenanceLabel p) (withClient c w)
       = runHandler (Readyz NodeMaintenanceLabel p) w /\
     runHandler (Healthz NodeMaintenanceLabel p) (withClient c w)
       = runHandler (Healthz NodeMaintenanceLabel p) w).
Proof.
  intros Hpass (svc & Hsvc & Hlabel). set (lookups := lookupCalls p).
  assert (Hrun : forall w', awaitPathsPass w' p ->
    runHandler (Readyz NodeMaintenanceLabel p) w'
      = {| written := [StatusServiceUnavailable]; calls := lookups |} /\
    runHandler (Healthz NodeMaintenanceLabel p) w'
      = {| written := [StatusOK]; calls := lookups |}).
  { intros w' Hpass'. probe_prefix Hpass'. rewrite Hsvc.
    rewrite (bool_decide_eq_true_2 _ Hlabel). split; reflexivity. }
  destruct (Hrun w Hpass) as [Hr Hh].
  split; [done|]. split; [done|]. split.
  - subst lookups. unfold lookupCalls. rewrite elem_of_app, list_elem_of_fmap.
    intros [(path & Heq & _)|Hin]; [discriminate|].
    apply list_elem_of_singleton in Hin. discriminate.
  - intros c. destruct (Hrun (withClient c w)) as [Hr' Hh']; [exact Hpass|].
    by rewrite Hr, Hh, Hr', Hh'.
Qed.

Lemma readyzScan_run c hostID l : forall w r,
  match scanOutcome c hostID l with
  | Some code =>
      fst (readyzScan c hostID l w r) = None /\
      written (snd (readyzScan c hostID l w r)) = written r ++ [code]
  | None =>
      fst (readyzScan c hostID l w r) = Some tt /\
      written (snd (readyzScan c hostID l w r)) = written r
  end.
Proof.
  unfold scanOutcome.
  induction l as [|s rest IH]; intros w r; [by split|].
  cbn [existsb readyzScan]. fold (isLocalUN hostID s).
  destruct (isLocalUN hostID s); cbn [orb]; hsimpl.
  - destruct (ScyllaClient.IsNativeTransportEnabled c localhost) as [[|]|err];
      [by split| |by split].
    specialize (IH w {| written := written r;
                        calls := calls r ++ [CallIsNativeTransportEnabled localhost] |}).
    destruct (existsb (isLocalUN hostID) rest); exact IH.
  - exact (IH w r).
Qed.

(** Past the two precondition checks, with a client, a node-status list and
    a host identifier, [Readyz] writes what the scan decides, and 503 when
    the scan runs to its end. *)
Lemma Readyz_scan_phase p w c l hostID :
  awaitPathsPass w p -> notUnderMaintenance NodeMaintenanceLabel p ->
  NewScyllaClientForLocalhost w = Ok c ->
  ScyllaClient.Status c localhost = Ok l ->
  ScyllaClient.GetLocalHostId c localhost false = Ok hostID ->
  wrote (Readyz NodeMaintenanceLabel p) w
    = [default StatusServiceUnavailable (scanOutcome c hostID l)].
Proof.
  intros Hpass (svc & Hsvc & Hlabel) Hc Hl Hh.
  probe_prefix Hpass. rewrite Hsvc. simpl. rewrite Hlabel. simpl.
  rewrite Hc, Hl, Hh.
  match goal with |- context [readyzScan c hostID l ?w' ?r'] =>
    pose proof (readyzScan_run c hostID l w' r') as Hscan;
    destruct (readyzScan c hostID l w' r') as [o r'']
  end.
  destruct (scanOutcome c hostID l) as [code|]; cbn [fst snd] in Hscan;
    destruct Hscan as [-> Hw]; simpl; rewrite Hw; reflexivity.
Qed.

(** Past the two precondition checks, a client that cannot be built, a
    failing node-status call and a failing host-identifier call each make
    [Readyz] write 500. *)
Lemma Readyz_internal_errors p w :
  awaitPathsPass w p -> notUnderMaintenance NodeMaintenanceLabel p ->
  (forall e, NewScyllaClientForLocalhost w = Err e ->
     wrote (Readyz NodeMaintenanceLabel p) w = [StatusInternalServerError]) /\
  (forall c e, NewScyllaClientForLocalhost w = Ok c ->
     ScyllaClient.Status c localhost = Err e ->
     wrote (Readyz NodeMaintenanceLabel p) w = [StatusInternalServerError]) /\
  (forall c l e, NewScyllaClientForLocalhost w = Ok c ->
     ScyllaClient.Status c localhost = Ok l ->
     ScyllaClient.GetLocalHostId c localhost false = Err e ->
     wrote (Readyz NodeMaintenanceLabel p) w = [StatusInternalServerError]).
Proof.
  intros Hpass (svc & Hsvc & Hlabel).
  split; [|split]; intros; probe_prefix Hpass; rewrite Hsvc; simpl;
    rewrite Hlabel; simpl.
  - by rewrite H.
  - by rewrite H, H0.
  - by rewrite H, H0, H1.
Qed.

(** C1.  Past the await-paths and maintenance checks, [Readyz] writes 200
    exactly when a client is built, the node-status list and the local host
    identifier are obtained, the list has an entry with that host identifier
    in the up/normal state, and the native-transport query answers true.  In
    particular, with exactly one such entry, transport enabled gives 200 and
    transport disabled gives 503. *)
Theorem readyz_ok_iff (p : Prober) (w : World) :
  awaitPathsPass w p -> notUnderMaintenance NodeMaintenanceLabel p ->
  (wrote (Readyz NodeMaintenanceLabel p) w = [StatusOK] <->
   exists c l hostID s,
     NewScyllaClientForLocalhost w = Ok c /\
     ScyllaClient.Status c localhost = Ok l /\
     ScyllaClient.GetLocalHostId c localhost false = Ok hostID /\
     s ∈ l /\ NodeStatusInfo.HostID s = hostID /\ NodeStatusInfo.IsUN s = true /\
     ScyllaClient.IsNativeTransportEnabled c localhost = Ok true) /\
  (forall c l hostID s,
     NewScyllaClientForLocalhost w = Ok c ->
     ScyllaClient.Status c localhost = Ok l ->
     ScyllaClient.GetLocalHostId c localhost false = Ok hostID ->
     List.filter (isLocalUN hostID) l = [s] ->
     (ScyllaClient.IsNativeTransportEnabled c localhost = Ok true ->
        wrote (Readyz NodeMaintenanceLabel p) w = [StatusOK]) /\
     (ScyllaClient.IsNativeTransportEnabled c localhost = Ok false ->
        wrote (Readyz NodeMaintenanceLabel p) w = [StatusServiceUnavailable])).
Proof.
  intros Hpass Hmaint.
  destruct (Readyz_internal_errors p w Hpass Hmaint) as (Hnew & Hstatus & Hhost).
  split; [split|].
  - intros H200.
    destruct (NewScyllaClientForLocalhost w) as [c|e] eqn:Hc;
      [|rewrite (Hnew e eq_refl) in H200; discriminate].
    destruct (ScyllaClient.Status c localhost) as [l|e] eqn:Hl;
      [|rewrite (Hstatus c e eq_refl Hl) in H200; discriminate].
    destruct (ScyllaClient.GetLocalHostId c localhost false) as [hostID|e] eqn:Hh;
      [|rewrite (Hhost c l e eq_refl Hl Hh) in H200; discriminate].
    rewrite (Readyz_scan_phase p w c l hostID Hpass Hmaint Hc Hl Hh) in H200.
    unfold scanOutcome in H200.
    destruct (existsb (isLocalUN hostID) l) eqn:Hex; [|discriminate].
    apply existsb_exists in Hex as (s & Hin & Hs).
    apply andb_prop in Hs as [Hid Hun]. apply bool_decide_eq_true_1 in Hid.
    exists c, l, hostID, s. apply list_elem_of_In in Hin.
    destruct (ScyllaClient.IsNativeTransportEnabled c localhost) as [[|]|];
      try discriminate.
    repeat split; assumption.
  - intros (c & l & hostID & s & Hc & Hl & Hh & Hin & Hid & Hun & Ht).
    rewrite (Readyz_scan_phase p w c l hostID Hpass Hmaint Hc Hl Hh).
    unfold scanOutcome. rewrite Ht.
    assert (existsb (isLocalUN hostID) l = true) as ->; [|reflexivity].
    apply existsb_exists. exists s. split; [by apply list_elem_of_In|].
    unfold isLocalUN. by rewrite Hun, (bool_decide_eq_true_2 _ Hid).
  - intros c l hostID s Hc Hl Hh Hone.
    rewrite (Readyz_scan_phase p w c l hostID Hpass Hmaint Hc Hl Hh).
    unfold scanOutcome.
    assert (existsb (isLocalUN hostID) l = true) as ->.
    { apply existsb_exists. exists s. apply filter_In. rewrite Hone. left. reflexivity. }
    split; intros ->; reflexivity.
Qed.

(** C2, as the code has it.  When the await-paths check passes and the
    lookup of the exposed service fails, both [Readyz] and [Healthz] write
    503. *)
Theorem maintenance_lookup_failure (p : Prober) (w : World) (err : error) :
  awaitPathsPass w p ->
  serviceLister p (namespace p) (serviceName p) = Err err ->
  wrote (Readyz NodeMaintenanceLabel p) w = [StatusServiceUnavailable] /\
  wrote (Healthz NodeMaintenanceLabel p) w = [StatusServiceUnavailable].
Proof.
  intros Hpass Herr. probe_prefix Hpass. rewrite Herr. split; reflexivity.
Qed.

(** C3, as the code has it.  In the database phase of [Readyz], an error of
    the node-status call or of the host-identifier call makes it write 500;
    an error of the native-transport call makes it write 503. *)
Theorem database_phase_errors (p : Prober) (w : World) (c : ScyllaClient.t) :
  awaitPathsPass w p -> notUnderMaintenance NodeMaintenanceLabel p ->
  NewScyllaClientForLocalhost w = Ok c ->
  (forall e, ScyllaClient.Status c localhost = Err e ->
     wrote (Readyz NodeMaintenanceLabel p) w = [StatusInternalServerError]) /\
  (forall l e, ScyllaClient.Status c localhost = Ok l ->
     ScyllaClient.GetLocalHostId c localhost false = Err e ->
     wrote (Readyz NodeMaintenanceLabel p) w = [StatusInternalServerError]) /\
  (forall l hostID e, ScyllaClient.Status c localhost = Ok l ->
     ScyllaClient.GetLocalHostId c localhost false = Ok hostID ->
     ScyllaClient.IsNativeTransportEnabled c localhost = Err e ->
     wrote (Readyz NodeMaintenanceLabel p) w = [StatusServiceUnavailable]).
Proof.
  intros Hpass Hmaint Hc.
  destruct (Readyz_internal_errors p w Hpass Hmaint) as (_ & Hstatus & Hhost).
  split; [|split].
  - intros e He. exact (Hstatus c e Hc He).
  - intros l e Hl He. exact (Hhost c l e Hc Hl He).
  - intros l hostID e Hl Hh He.
    rewrite (Readyz_scan_phase p w c l hostID Hpass Hmaint Hc Hl Hh).
    unfold scanOutcome. rewrite He.
    destruct (existsb (isLocalUN hostID) l); reflexivity.
Qed.

End ProbeProperties.

(** ** The probe engine on concrete nodes *)

Lemma Sample_awaitPathsPass c svc paths :
  awaitPathsPass (Sample.allPresent c) (Sample.prober svc paths).
Proof. intros path _. reflexivity. Qed.

Lemma Sample_notUnderMaintenance paths :
  notUnderMaintenance Sample.maintenanceLabel
    (Sample.prober (Ok Sample.plainService) paths).
Proof. exists Sample.plainService. split; reflexivity. Qed.

Lemma readyz_ok_iff_witness :
  awaitPathsPass (Sample.allPresent (Ok Sample.goodClient))
    (Sample.prober (Ok Sample.plainService) ["/var/lib/scylla/ready"]) /\
  notUnderMaintenance Sample.maintenanceLabel
    (Sample.prober (Ok Sample.plainService) ["/var/lib/scylla/ready"]) /\
  wrote (Readyz Sample.maintenanceLabel
           (Sample.prober (Ok Sample.plainService) ["/var/lib/scylla/ready"]))
        (Sample.allPresent (Ok Sample.goodClient)) = [StatusOK].
Proof.
  split; [apply Sample_awaitPathsPass|]. split; [apply Sample_notUnderMaintenance|].
  apply (proj1 (readyz_ok_iff Sample.maintenanceLabel _ _
                  (Sample_awaitPathsPass _ _ _) (Sample_notUnderMaintenance _))).
  exists Sample.goodClient, [Sample.joining "h2"; Sample.un "h1"], "h1", (Sample.un "h1").
  repeat split. right. left.
Defined.

Lemma maintenance_lookup_failure_witness :
  wrote (Readyz Sample.maintenanceLabel (Sample.prober (Err Sample.refused) ["/ready"]))
        (Sample.allPresent (Ok Sample.goodClient)) = [StatusServiceUnavailable] /\
  wrote (Healthz Sample.maintenanceLabel (Sample.prober (Err Sample.refused) ["/ready"]))
        (Sample.allPresent (Ok Sample.goodClient)) = [StatusServiceUnavailable].
Proof.
  apply (maintenance_lookup_failure Sample.maintenanceLabel _ _ Sample.refused).
  - apply Sample_awaitPathsPass.
  - reflexivity.
Defined.

(** C2 as stated fails: with every path present and a failing service
    lookup, neither handler writes 500. *)
Lemma maintenance_lookup_failure_not_500 :
  awaitPathsPass (Sample.allPresent (Ok Sample.goodClient))
    (Sample.prober (Err Sample.refused) ["/ready"]) /\
  serviceLister (Sample.prober (Err Sample.refused) ["/ready"]) "scylla" "dc-rack-0"
    = Err Sample.refused /\
  wrote (Readyz Sample.maintenanceLabel (Sample.prober (Err Sample.refused) ["/ready"]))
        (Sample.allPresent (Ok Sample.goodClient)) <> [StatusInternalServerError] /\
  wrote (Healthz Sample.maintenanceLabel (Sample.prober (Err Sample.refused) ["/ready"]))
        (Sample.allPresent (Ok Sample.goodClient)) <> [StatusInternalServerError].
Proof.
  split; [apply Sample_awaitPathsPass|]. split; [reflexivity|].
  split; vm_compute; discriminate.
Qed.

Lemma database_phase_errors_witness :
  wrote (Readyz Sample.maintenanceLabel (Sample.prober (Ok Sample.plainService) ["/ready"]))
        (Sample.allPresent
           (Ok (Sample.client (Ok [Sample.un "h1"]) (Ok "h1") (Err Sample.refused) (Ok 1))))
    = [StatusServiceUnavailable].
Proof.
  refine (proj2 (proj2 (database_phase_errors Sample.maintenanceLabel _ _ _
                          (Sample_awaitPathsPass _ _ _)
                          (Sample_notUnderMaintenance _) eq_refl))
            [Sample.un "h1"] "h1" Sample.refused _ _ _); reflexivity.
Defined.

(** C3 as stated fails: past the two checks and with a client, a failing
    node-status call makes [Readyz] write 500, not 503; so does a failing
    host-identifier call. *)
Lemma database_phase_errors_not_503 :
  wrote (Readyz Sample.maintenanceLabel (Sample.prober (Ok Sample.plainService) ["/ready"]))
        (Sample.allPresent
           (Ok (Sample.client (Err Sample.refused) (Ok "h1") (Ok true) (Ok 1))))
    = [StatusInternalServerError] /\
  wrote (Readyz Sample.maintenanceLabel (Sample.prober (Ok Sample.plainService) ["/ready"]))
        (Sample.allPresent
           (Ok (Sample.client (Ok [Sample.un "h1"]) (Err Sample.refused) (Ok true) (Ok 1))))
    = [StatusInternalServerError] /\
  [StatusInternalServerError] <> [StatusServiceUnavailable].
Proof. split; [|split]; [reflexivity|reflexivity|discriminate]. Qed.

Lemma await_paths_outcomes_witness :
  (wrote (Readyz Sample.maintenanceLabel
            (Sample.prober (Ok Sample.plainService) ["/ready"; "/mounted"]))
         (Sample.nonePresent (Ok Sample.goodClient)) = [StatusServiceUnavailable] /\
   wrote (Healthz Sample.maintenanceLabel
            (Sample.prober (Ok Sample.plainService) ["/ready"; "/mounted"]))
         (Sample.nonePresent (Ok Sample.goodClient)) = [StatusOK]) /\
  (wrote (Readyz Sample.maintenanceLabel
            (Sample.prober (Ok Sample.plainService) ["/ready"; "/denied"]))
         (Sample.oneDenied (Ok Sample.goodClient)) = [StatusInternalServerError] /\
   wrote (Healthz Sample.maintenanceLabel
            (Sample.prober (Ok Sample.plainService) ["/ready"; "/denied"]))
         (Sample.oneDenied (Ok Sample.goodClient)) = [StatusInternalServerError]).
Proof.
  split.
  - apply (proj1 (await_paths_outcomes Sample.maintenanceLabel _ _)).
    + discriminate.
    + intros path _. eexists. split; reflexivity.
  - apply (proj2 (await_paths_outcomes Sample.maintenanceLabel _ _)).
    exists "/denied", (ErrWrap "stat /denied" (ErrString "permission denied")).
    split; [right; left|]. split; reflexivity.
Defined.

Lemma maintenance_outcomes_witness :
  runHandler (Readyz Sample.maintenanceLabel
                (Sample.prober (Ok Sample.maintenanceService) ["/ready"]))
             (Sample.allPresent (Err Sample.refused))
    = {| written := [StatusServiceUnavailable];
         calls := [CallStat "/ready"; CallGetService "scylla" "dc-rack-0"] |} /\
  runHandler (Healthz Sample.maintenanceLabel
                (Sample.prober (Ok Sample.maintenanceService) ["/ready"]))
             (Sample.allPresent (Err Sample.refused))
    = {| written := [StatusOK];
         calls := [CallStat "/ready"; CallGetService "scylla" "dc-rack-0"] |}.
Proof.
  assert (Hm : underMaintenance Sample.maintenanceLabel
                 (Sample.prober (Ok Sample.maintenanceService) ["/ready"])).
  { exists Sample.maintenanceService. split; [reflexivity|]. eexists. reflexivity. }
  destruct (maintenance_outcomes Sample.maintenanceLabel _ _
              (Sample_awaitPathsPass (Err Sample.refused) _ ["/ready"]) Hm)
    as (Hr & Hh & _).
  split; [exact Hr|exact Hh].
Defined.

(** * Properties of the status engine *)

(** ** [int32] sums *)

Lemma int32_wrap_in_range z : in_int32 z -> int32_wrap z = z.
Proof.
  unfold in_int32, int32_wrap. intros Hz.
  rewrite Z.mod_small; lia.
Qed.

Lemma int32_wrap_add_l a b : int32_wrap (int32_wrap a + b) = int32_wrap (a + b).
Proof.
  unfold int32_wrap. f_equal.
  replace ((a + 2 ^ 31) mod 2 ^ 32 - 2 ^ 31 + b + 2 ^ 31)
    with ((a + 2 ^ 31) mod 2 ^ 32 + b) by lia.
  rewrite Zplus_mod_idemp_l. f_equal. lia.
Qed.

Lemma foldl_int32_add l : forall acc,
  foldl int32_add (int32_wrap acc) l = int32_wrap (acc + sumZ l).
Proof.
  induction l as [|x l IH]; intros acc; cbn [foldl sumZ foldr].
  - by rewrite Z.add_0_r.
  - unfold int32_add at 2. rewrite int32_wrap_add_l, IH. f_equal.
    fold (sumZ l). lia.
Qed.

Lemma int32_sum_wrap l : int32_sum l = int32_wrap (sumZ l).
Proof.
  unfold int32_sum. change 0 with (int32_wrap 0) at 1.
  by rewrite foldl_int32_add.
Qed.

Lemma int32_sum_exact l : in_int32 (sumZ l) -> int32_sum l = sumZ l.
Proof. intros H. rewrite int32_sum_wrap. by apply int32_wrap_in_range. Qed.

Section StatusProperties.
Context {X : Type} `{EqDecision X}.
Variable imports : Imports X.
Variable sdcc : Controller X.

Lemma aggregateLoop_sums racks : forall n r a n' r' a',
  aggregateLoop racks n r a = Some (n', r', a') ->
  exists ns rs avs,
    mapM RackStatus.Nodes racks = Some ns /\
    mapM RackStatus.ReadyNodes racks = Some rs /\
    mapM RackStatus.AvailableNodes racks = Some avs /\
    n' = foldl int32_add n ns /\ r' = foldl int32_add r rs /\
    a' = foldl int32_add a avs.
Proof.
  induction racks as [|rack rest IH]; intros n r a n' r' a' Hloop.
  - injection Hloop as <- <- <-. by exists [], [], [].
  - cbn [aggregateLoop] in Hloop.
    destruct (RackStatus.Nodes rack) as [x|] eqn:Hx; [|discriminate].
    destruct (RackStatus.ReadyNodes rack) as [y|] eqn:Hy; [|discriminate].
    destruct (RackStatus.AvailableNodes rack) as [z|] eqn:Hz; [|discriminate].
    cbn [mbind option_bind] in Hloop.
    destruct (IH _ _ _ _ _ _ Hloop) as (ns & rs & avs & Hn & Hr & Ha & -> & -> & ->).
    exists (x :: ns), (y :: rs), (z :: avs). simpl.
    rewrite Hx, Hy, Hz, Hn, Hr, Ha. done.
Qed.

Lemma updateAggregatedStatusFields_Some (status status' : ScyllaDBDatacenterStatus.t X) :
  updateAggregatedStatusFields status = Some status' ->
  countsAggregated status' /\
  exists n r a, status' = ScyllaDBDatacenterStatus.setCounts n r a status.
Proof.
  unfold updateAggregatedStatusFields. intros Hagg.
  destruct (aggregateLoop _ 0 0 0) as [[[n r] a]|] eqn:Hloop; [|discriminate].
  injection Hagg as <-.
  destruct (aggregateLoop_sums _ _ _ _ _ _ _ Hloop)
    as (ns & rs & avs & Hn & Hr & Ha & -> & -> & ->).
  split; [|eauto]. exists ns, rs, avs. by repeat split.
Qed.

(** A status that satisfies the invariant is left as it is by a new
    aggregation. *)
Lemma updateAggregatedStatusFields_fixed (status : ScyllaDBDatacenterStatus.t X) :
  countsAggregated status -> updateAggregatedStatusFields status = Some status.
Proof.
  intros (ns & rs & avs & Hn & Hr & Ha & HN & HR & HA).
  unfold updateAggregatedStatusFields.
  destruct (aggregateLoop _ 0 0 0) as [[[n r] a]|] eqn:Hloop.
  - destruct (aggregateLoop_sums _ _ _ _ _ _ _ Hloop)
      as (ns' & rs' & avs' & Hn' & Hr' & Ha' & -> & -> & ->).
    simpl. rewrite Hn in Hn'. rewrite Hr in Hr'. rewrite Ha in Ha'.
    injection Hn' as <-. injection Hr' as <-. injection Ha' as <-.
    destruct status; simpl in *. unfold ScyllaDBDatacenterStatus.setCounts; simpl.
    by rewrite HN, HR, HA.
  - exfalso. revert Hn Hr Ha Hloop. clear.
    generalize (ScyllaDBDatacenterStatus.Racks status).
    generalize 0 at 1. generalize 0 at 1. generalize 0 at 1.
    intros a r n racks. revert n r a ns rs avs.
    induction racks as [|rack rest IH]; intros n r a ns rs avs Hn Hr Ha Hloop;
      [discriminate|].
    simpl in Hn, Hr, Ha, Hloop.
    destruct (RackStatus.Nodes rack); [|discriminate].
    destruct (RackStatus.ReadyNodes rack); [|discriminate].
    destruct (RackStatus.AvailableNodes rack); [|discriminate].
    simpl in *.
    destruct (mapM RackStatus.Nodes rest) eqn:E1; [|discriminate].
    destruct (mapM RackStatus.ReadyNodes rest) eqn:E2; [|discriminate].
    destruct (mapM RackStatus.AvailableNodes rest) eqn:E3; [|discriminate].
    eapply IH; eauto.
Qed.

(** [calculateStatus], with the record it builds written out. *)
Lemma calculateStatus_eq (sdc : ScyllaDBDatacenter.t X) statefulSetMap :
  calculateStatus imports sdcc sdc statefulSetMap =
    (racks ← calculateRacksLoop imports sdcc sdc statefulSetMap
               (ScyllaDBDatacenter.Spec_Racks sdc) [];
     '(n, r, a) ← aggregateLoop racks 0 0 0;
     Some (ScyllaDBDatacenterStatus.mk
             (Some (ScyllaDBDatacenter.Generation sdc))
             (ScyllaDBDatacenterStatus.Conditions (ScyllaDBDatacenter.Status sdc))
             racks (Some n) (Some r) (Some a)
             (ScyllaDBDatacenterStatus.Other (ScyllaDBDatacenter.Status sdc)))).
Proof.
  unfold calculateStatus. cbn [ScyllaDBDatacenterStatus.setRacks
    ScyllaDBDatacenterStatus.setObservedGeneration ScyllaDBDatacenterStatus.Racks].
  destruct (calculateRacksLoop _ _ _ _ _ _) as [racks|]; [|reflexivity].
  cbn [mbind option_bind]. unfold updateAggregatedStatusFields.
  cbn [ScyllaDBDatacenterStatus.Racks ScyllaDBDatacenterStatus.setRacks].
  destruct (aggregateLoop racks 0 0 0) as [[[n r] a]|]; reflexivity.
Qed.

Lemma calculateStatus_Some (sdc : ScyllaDBDatacenter.t X) statefulSetMap st :
  calculateStatus imports sdcc sdc statefulSetMap = Some st ->
  countsAggregated st /\
  st = ScyllaDBDatacenterStatus.mk
         (Some (ScyllaDBDatacenter.Generation sdc))
         (ScyllaDBDatacenterStatus.Conditions (ScyllaDBDatacenter.Status sdc))
         (ScyllaDBDatacenterStatus.Racks st)
         (ScyllaDBDatacenterStatus.Nodes st)
         (ScyllaDBDatacenterStatus.ReadyNodes st)
         (ScyllaDBDatacenterStatus.AvailableNodes st)
         (ScyllaDBDatacenterStatus.Other (ScyllaDBDatacenter.Status sdc)).
Proof.
  intros Hcalc. split.
  - unfold calculateStatus in Hcalc.
    destruct (calculateRacksLoop _ _ _ _ _ _) as [racks|]; [|discriminate].
    cbn [mbind option_bind] in Hcalc.
    by apply updateAggregatedStatusFields_Some in Hcalc as [Hagg _].
  - rewrite calculateStatus_eq in Hcalc.
    destruct (calculateRacksLoop _ _ _ _ _ _) as [racks|]; [|discriminate].
    cbn [mbind option_bind] in Hcalc.
    destruct (aggregateLoop racks 0 0 0) as [[[n r] a]|]; [|discriminate].
    by injection Hcalc as <-.
Qed.

Lemma calculateRackStatus_setStatus (sdc : ScyllaDBDatacenter.t X) st sts :
  calculateRackStatus imports sdcc (ScyllaDBDatacenter.setStatus st sdc) sts
    = calculateRackStatus imports sdcc sdc sts.
Proof. reflexivity. Qed.

Lemma calculateRacksLoop_setStatus (sdc : ScyllaDBDatacenter.t X) st statefulSetMap rackSpecs :
  importsIgnoreStatus imports -> forall racks,
  calculateRacksLoop imports sdcc (ScyllaDBDatacenter.setStatus st sdc)
      statefulSetMap rackSpecs racks
    = calculateRacksLoop imports sdcc sdc statefulSetMap rackSpecs racks.
Proof.
  intros Hign. induction rackSpecs as [|rack rest IH]; intros racks; [reflexivity|].
  cbn [calculateRacksLoop]. destruct (Hign sdc st) as (-> & _ & _).
  rewrite calculateRackStatus_setStatus.
  destruct (calculateRackStatus _ _ _ _) as [rackStatus|]; [|reflexivity].
  cbn [mbind option_bind]. apply IH.
Qed.

Lemma prewarmedOrdLoop_setStatus (sdc : ScyllaDBDatacenter.t X) st services rack iterations :
  importsIgnoreStatus imports -> forall ord prewarmed,
  prewarmedOrdLoop imports sdcc (ScyllaDBDatacenter.setStatus st sdc) services rack
      iterations ord prewarmed
    = prewarmedOrdLoop imports sdcc sdc services rack iterations ord prewarmed.
Proof.
  intros Hign. induction iterations as [|n IH]; intros ord prewarmed; [reflexivity|].
  cbn [prewarmedOrdLoop]. destruct (Hign sdc st) as (_ & -> & _).
  destruct (services !! _) as [svc|]; [|reflexivity].
  cbn [ScyllaDBDatacenter.setStatus ScyllaDBDatacenter.Namespace].
  destruct (podLister sdcc _ _) as [pod|]; [|reflexivity].
  apply IH.
Qed.

Lemma prewarmedRackLoop_setStatus (sdc : ScyllaDBDatacenter.t X) st services racks :
  importsIgnoreStatus imports -> forall prewarmed,
  prewarmedRackLoop imports sdcc (ScyllaDBDatacenter.setStatus st sdc) services racks prewarmed
    = prewarmedRackLoop imports sdcc sdc services racks prewarmed.
Proof.
  intros Hign. induction racks as [|rack rest IH]; intros prewarmed; [reflexivity|].
  cbn [prewarmedRackLoop]. destruct (Hign sdc st) as (_ & _ & ->).
  destruct (GetRackNodeCount imports sdc _) as [count|]; [|reflexivity].
  rewrite prewarmedOrdLoop_setStatus by exact Hign. apply IH.
Qed.

Lemma updateCondition_again now now' (c newCondition : Condition.t) :
  updateCondition now' (updateCondition now c newCondition) newCondition
    = updateCondition now c newCondition.
Proof.
  unfold updateCondition at 1. cbn [Condition.Status Condition.Type_ updateCondition
    Condition.LastTransitionTime].
  rewrite bool_decide_eq_true_2 by reflexivity. reflexivity.
Qed.

(** Setting the same condition a second time, at whatever later moment,
    changes nothing. *)
Lemma SetStatusCondition_again now now' conditions (c : Condition.t) :
  SetStatusCondition now' (SetStatusCondition now conditions c) c
    = SetStatusCondition now conditions c.
Proof.
  induction conditions as [|c0 rest IH].
  - cbn [SetStatusCondition Condition.Type_].
    rewrite bool_decide_eq_true_2 by reflexivity.
    unfold updateCondition. cbn [Condition.Status Condition.Type_
      Condition.LastTransitionTime Condition.Reason Condition.Message
      Condition.ObservedGeneration].
    rewrite bool_decide_eq_true_2 by reflexivity. reflexivity.
  - cbn [SetStatusCondition].
    destruct (bool_decide (Condition.Type_ c0 = Condition.Type_ c)) eqn:Htype.
    + cbn [SetStatusCondition].
      change (Condition.Type_ (updateCondition now c0 c)) with (Condition.Type_ c0).
      rewrite Htype. by rewrite updateCondition_again.
    + cbn [SetStatusCondition]. rewrite Htype. by rewrite IH.
Qed.

(** After [SetStatusCondition], the condition of that type carries the new
    status, reason, message and generation. *)
Lemma FindStatusCondition_Set now conditions (c : Condition.t) :
  exists found,
    FindStatusCondition (SetStatusCondition now conditions c) (Condition.Type_ c)
      = Some found /\
    Condition.Status found = Condition.Status c /\
    Condition.Reason found = Condition.Reason c /\
    Condition.Message found = Condition.Message c /\
    Condition.ObservedGeneration found = Condition.ObservedGeneration c.
Proof.
  unfold FindStatusCondition. induction conditions as [|c0 rest IH].
  - cbn [SetStatusCondition find Condition.Type_].
    rewrite bool_decide_eq_true_2 by reflexivity. eexists. split; [reflexivity|]. done.
  - cbn [SetStatusCondition].
    destruct (bool_decide (Condition.Type_ c0 = Condition.Type_ c)) eqn:Htype.
    + cbn [find].
      change (Condition.Type_ (updateCondition now c0 c)) with (Condition.Type_ c0).
      rewrite Htype. eexists. split; [reflexivity|]. done.
    + cbn [find]. rewrite Htype. exact IH.
Qed.

(** A pass that starts from the status the previous pass computed, with
    the same workload objects, services and pods, computes that status
    again. *)
Lemma computeStatus_fixed now now' (sdc : ScyllaDBDatacenter.t X)
    statefulSetMap services s1 :
  importsIgnoreStatus imports ->
  computeStatus imports sdcc now sdc statefulSetMap services = Some s1 ->
  computeStatus imports sdcc now' (ScyllaDBDatacenter.setStatus s1 sdc)
    statefulSetMap services = Some s1.
Proof.
  intros Hign. unfold computeStatus. rewrite !calculateStatus_eq.
  rewrite calculateRacksLoop_setStatus by exact Hign.
  cbn [ScyllaDBDatacenter.setStatus ScyllaDBDatacenter.Spec_Racks
       ScyllaDBDatacenter.Generation ScyllaDBDatacenter.Status].
  destruct (calculateRacksLoop _ _ _ _ _ _) as [racks|]; [|discriminate].
  cbn [mbind option_bind].
  destruct (aggregateLoop racks 0 0 0) as [[[n r] a]|]; [|discriminate].
  cbn [mbind option_bind]. intros Hs1. injection Hs1 as <-. f_equal.
  unfold setPrewarmedStatusCondition.
  rewrite prewarmedRackLoop_setStatus by exact Hign.
  cbn [ScyllaDBDatacenter.setStatus ScyllaDBDatacenter.Spec_Racks
       ScyllaDBDatacenter.Generation ScyllaDBDatacenter.Status
       ScyllaDBDatacenterStatus.setConditions ScyllaDBDatacenterStatus.Conditions
       ScyllaDBDatacenterStatus.ObservedGeneration ScyllaDBDatacenterStatus.Racks
       ScyllaDBDatacenterStatus.Nodes ScyllaDBDatacenterStatus.ReadyNodes
       ScyllaDBDatacenterStatus.AvailableNodes ScyllaDBDatacenterStatus.Other].
  by rewrite SetStatusCondition_again.
Qed.

Lemma setPrewarmedStatusCondition_counts now (sdc : ScyllaDBDatacenter.t X) status services :
  countsAggregated status ->
  countsAggregated (setPrewarmedStatusCondition imports sdcc now sdc status services).
Proof. intros Hagg. exact Hagg. Qed.

(** ** The Prewarmed scan *)

Lemma prewarmedOrdLoop_false (sdc : ScyllaDBDatacenter.t X) services rack iterations :
  forall ord, prewarmedOrdLoop imports sdcc sdc services rack iterations ord false = false.
Proof.
  induction iterations as [|n IH]; intros ord; [reflexivity|].
  cbn [prewarmedOrdLoop].
  destruct (services !! _) as [svc|]; [|reflexivity].
  destruct (podLister sdcc _ _) as [pod|]; [|reflexivity].
  destruct (negb _ || negb _); apply IH.
Qed.

Lemma prewarmedRackLoop_false (sdc : ScyllaDBDatacenter.t X) services racks :
  prewarmedRackLoop imports sdcc sdc services racks false = false.
Proof.
  induction racks as [|rack rest IH]; [reflexivity|].
  cbn [prewarmedRackLoop].
  destruct (GetRackNodeCount imports sdc _) as [count|]; [|reflexivity].
  by rewrite prewarmedOrdLoop_false.
Qed.

Lemma prewarmedOrdLoop_lookup_fails (sdc : ScyllaDBDatacenter.t X) services rack iterations :
  forall first prewarmed ord,
    first <= ord < first + Z.of_nat iterations ->
    memberLookupFails imports sdcc sdc services rack ord ->
    prewarmedOrdLoop imports sdcc sdc services rack iterations first prewarmed = false.
Proof.
  induction iterations as [|n IH]; intros first prewarmed ord Hord Hfail; [lia|].
  cbn [prewarmedOrdLoop].
  destruct (services !! MemberServiceName imports rack sdc first) as [svc|] eqn:Hsvc;
    [|reflexivity].
  destruct (podLister sdcc _ _) as [pod|] eqn:Hpod; [|reflexivity].
  apply (IH _ _ ord); [|exact Hfail].
  destruct (decide (ord = first)) as [->|Hne]; [|lia].
  exfalso. destruct Hfail as [Hnone|(svc' & err & Hsvc' & Herr)]; [congruence|].
  rewrite Hsvc in Hsvc'. injection Hsvc' as <-. congruence.
Qed.

Lemma prewarmedRackLoop_lookup_fails (sdc : ScyllaDBDatacenter.t X) services racks :
  forall prewarmed rack,
    rack ∈ racks -> rackLookupFails imports sdcc sdc services rack ->
    prewarmedRackLoop imports sdcc sdc services racks prewarmed = false.
Proof.
  induction racks as [|rack0 rest IH]; intros prewarmed rack Hin Hfail.
  - by apply elem_of_nil in Hin.
  - cbn [prewarmedRackLoop].
    destruct (GetRackNodeCount imports sdc (RackSpec.Name rack0)) as [count|] eqn:Hcount;
      [|reflexivity].
    apply elem_of_cons in Hin as [->|Hin]; [|by apply (IH _ rack)].
    unfold rackLookupFails in Hfail. rewrite Hcount in Hfail.
    destruct Hfail as (ord & Hord & Hfail).
    rewrite (prewarmedOrdLoop_lookup_fails sdc services rack0 _ 0 prewarmed ord);
      [apply prewarmedRackLoop_false|lia|exact Hfail].
Qed.

(** C4, as the code has it.  [setPrewarmedStatusCondition] returns a status
    and no error.  Whenever a lookup of the scan fails, the scan ends with
    [prewarmed = false]; and however the scan comes to [prewarmed = false],
    by a failed lookup or by a pod that is not ready, the Prewarmed
    condition is set to False with the one reason NotAllNodesPrewarmed. *)
Theorem prewarmed_false_on_lookup_failure now (sdc : ScyllaDBDatacenter.t X)
    (status : ScyllaDBDatacenterStatus.t X) (services : gmap string Service.t) :
  ((exists rack, rack ∈ ScyllaDBDatacenter.Spec_Racks sdc /\
                 rackLookupFails imports sdcc sdc services rack) ->
   notPrewarmed imports (ScyllaDBDatacenterStatus.Conditions
                   (setPrewarmedStatusCondition imports sdcc now sdc status services))) /\
  (prewarmedRackLoop imports sdcc sdc services (ScyllaDBDatacenter.Spec_Racks sdc) true
     = false ->
   notPrewarmed imports (ScyllaDBDatacenterStatus.Conditions
                   (setPrewarmedStatusCondition imports sdcc now sdc status services))).
Proof.
  assert (Hcondition :
    prewarmedRackLoop imports sdcc sdc services (ScyllaDBDatacenter.Spec_Racks sdc) true
      = false ->
    notPrewarmed imports (ScyllaDBDatacenterStatus.Conditions
                    (setPrewarmedStatusCondition imports sdcc now sdc status services))).
  { intros Hfalse. unfold setPrewarmedStatusCondition. rewrite Hfalse.
    cbn [ScyllaDBDatacenterStatus.setConditions ScyllaDBDatacenterStatus.Conditions].
    destruct (FindStatusCondition_Set now (ScyllaDBDatacenterStatus.Conditions status)
                (Condition.mk (PrewarmedCondition imports) ConditionFalse
                   "NotAllNodesPrewarmed" "Not all nodes are prewarmed yet."
                   (ScyllaDBDatacenter.Generation sdc) None))
      as (c & Hfind & Hstatus & Hreason & Hmessage & _).
    exists c. by repeat split. }
  split; [|exact Hcondition].
  intros (rack & Hin & Hfail). apply Hcondition.
  by apply (prewarmedRackLoop_lookup_fails sdc services _ true rack).
Qed.

(** ** Rack status *)

(** C7.  Without a workload object the rack status has its five node counts
    at zero, is stale and has empty versions.  With a workload object whose
    replica count is set, a status is returned, and it is stale exactly when
    the observed generation of the object is below its generation; equal
    generations give a status that is not stale. *)
Theorem rack_status_staleness (sdc : ScyllaDBDatacenter.t X) :
  (exists status,
     calculateRackStatus imports sdcc sdc None = Some status /\
     RackStatus.Nodes status = Some 0 /\
     RackStatus.CurrentNodes status = Some 0 /\
     RackStatus.UpdatedNodes status = Some 0 /\
     RackStatus.ReadyNodes status = Some 0 /\
     RackStatus.AvailableNodes status = Some 0 /\
     RackStatus.Stale status = Some true /\
     RackStatus.CurrentVersion status = "" /\
     RackStatus.UpdatedVersion status = "") /\
  (forall sts replicas,
     StatefulSet.Spec_Replicas sts = Some replicas ->
     exists status,
       calculateRackStatus imports sdcc sdc (Some sts) = Some status /\
       (RackStatus.Stale status = Some true <->
        StatefulSet.Status_ObservedGeneration sts < StatefulSet.Generation sts) /\
       (StatefulSet.Status_ObservedGeneration sts = StatefulSet.Generation sts ->
        RackStatus.Stale status = Some false) /\
       (exists stale, RackStatus.Stale status = Some stale)).
Proof.
  split.
  - eexists. split; [reflexivity|]. by repeat split.
  - intros sts replicas Hreplicas. unfold calculateRackStatus. rewrite Hreplicas.
    cbn [mbind option_bind]. eexists. split; [reflexivity|].
    cbn [RackStatus.Stale]. split; [|split].
    + split.
      * intros Hstale. injection Hstale as Hstale.
        by apply bool_decide_eq_true_1 in Hstale.
      * intros Hlt. by rewrite bool_decide_eq_true_2.
    + intros Heq. rewrite bool_decide_eq_false_2; [reflexivity|lia].
    + eauto.
Qed.

(** ** Aggregated counts and the frame of [calculateStatus] *)

Lemma calculateRacksLoop_total (sdc : ScyllaDBDatacenter.t X)
    (statefulSetMap : gmap string StatefulSet.t) rackSpecs :
  replicasSet statefulSetMap ->
  forall racks,
    is_Some (calculateRacksLoop imports sdcc sdc statefulSetMap rackSpecs racks).
Proof.
  intros Hreplicas. induction rackSpecs as [|rack rest IH]; intros racks; [by eexists|].
  cbn [calculateRacksLoop].
  destruct (statefulSetMap !! _) as [sts|] eqn:Hsts.
  - destruct (Hreplicas _ _ Hsts) as [replicas Hr].
    unfold calculateRackStatus. rewrite Hr. cbn [mbind option_bind]. apply IH.
  - cbn [calculateRackStatus mbind option_bind]. apply IH.
Qed.

Lemma aggregateLoop_total racks :
  Forall countsSet racks -> forall n r a, is_Some (aggregateLoop racks n r a).
Proof.
  induction 1 as [|rack rest ([x Hx] & [y Hy] & [z Hz]) _ IH]; intros n r a; [by eexists|].
  cbn [aggregateLoop]. rewrite Hx, Hy, Hz. cbn [mbind option_bind]. apply IH.
Qed.

Lemma calculateRackStatus_counts (sdc : ScyllaDBDatacenter.t X) sts rackStatus :
  calculateRackStatus imports sdcc sdc sts = Some rackStatus -> countsSet rackStatus.
Proof.
  unfold calculateRackStatus, countsSet. destruct sts as [sts|].
  - destruct (StatefulSet.Spec_Replicas sts); [|discriminate].
    cbn [mbind option_bind]. intros Heq. injection Heq as <-.
    cbn [RackStatus.Nodes RackStatus.ReadyNodes RackStatus.AvailableNodes]. eauto.
  - intros Heq. injection Heq as <-.
    cbn [RackStatus.Nodes RackStatus.ReadyNodes RackStatus.AvailableNodes]. eauto.
Qed.

Lemma calculateRacksLoop_counts (sdc : ScyllaDBDatacenter.t X)
    (statefulSetMap : gmap string StatefulSet.t) rackSpecs :
  forall racks racks',
    calculateRacksLoop imports sdcc sdc statefulSetMap rackSpecs racks = Some racks' ->
    Forall countsSet racks -> Forall countsSet racks'.
Proof.
  induction rackSpecs as [|rack rest IH]; intros racks racks' Hloop Hall.
  - injection Hloop as <-. exact Hall.
  - cbn [calculateRacksLoop] in Hloop.
    destruct (calculateRackStatus _ _ _ _) as [rackStatus|] eqn:Hrack; [|discriminate].
    cbn [mbind option_bind] in Hloop. apply (IH _ _ Hloop).
    apply Forall_app. split; [exact Hall|].
    apply Forall_singleton. by apply calculateRackStatus_counts in Hrack.
Qed.

(** [calculateStatus] returns a status whenever every workload object of the
    map has its replica count set. *)
Lemma calculateStatus_total (sdc : ScyllaDBDatacenter.t X)
    (statefulSetMap : gmap string StatefulSet.t) :
  replicasSet statefulSetMap ->
  is_Some (calculateStatus imports sdcc sdc statefulSetMap).
Proof.
  intros Hreplicas. rewrite calculateStatus_eq.
  destruct (calculateRacksLoop_total sdc statefulSetMap
              (ScyllaDBDatacenter.Spec_Racks sdc) Hreplicas []) as [racks Hracks].
  rewrite Hracks. cbn [mbind option_bind].
  destruct (aggregateLoop_total racks) with (n := 0) (r := 0) (a := 0)
    as [[[n r] a] Hloop].
  { apply (calculateRacksLoop_counts _ _ _ _ _ Hracks). constructor. }
  rewrite Hloop. by eexists.
Qed.

Lemma updateAggregatedStatusFields_total (status : ScyllaDBDatacenterStatus.t X) :
  Forall countsSet (ScyllaDBDatacenterStatus.Racks status) ->
  is_Some (updateAggregatedStatusFields status).
Proof.
  intros Hcounts. unfold updateAggregatedStatusFields.
  destruct (aggregateLoop_total _ Hcounts 0 0 0) as [[[n r] a] Hloop].
  rewrite Hloop. by eexists.
Qed.

(** What [updateStatus] sends is the stored object with the given status,
    aggregated anew. *)
Lemma updateStatus_sent (currentSC : ScyllaDBDatacenter.t X)
    (status : ScyllaDBDatacenterStatus.t X) err sent :
  updateStatus sdcc currentSC status = Some (err, sent) ->
  (ScyllaDBDatacenter.Status currentSC = status /\ sent = []) \/
  (ScyllaDBDatacenter.Status currentSC <> status /\
   exists aggregated,
     updateAggregatedStatusFields status = Some aggregated /\
     sent = [ScyllaDBDatacenter.setStatus aggregated currentSC]).
Proof.
  unfold updateStatus. case_bool_decide as Heq.
  - intros Hsent. injection Hsent as <- <-. by left.
  - cbn [ScyllaDBDatacenter.setStatus ScyllaDBDatacenter.Status].
    destruct (updateAggregatedStatusFields status) as [aggregated|]; [|discriminate].
    cbn [mbind option_bind]. intros Hsent. right. split; [done|].
    exists aggregated. split; [done|].
    destruct (scyllaClient_UpdateStatus sdcc _); by injection Hsent as <- <-.
Qed.

Lemma updateStatus_total (currentSC : ScyllaDBDatacenter.t X)
    (status : ScyllaDBDatacenterStatus.t X) :
  Forall countsSet (ScyllaDBDatacenterStatus.Racks status) ->
  is_Some (updateStatus sdcc currentSC status).
Proof.
  intros Hcounts. unfold updateStatus. case_bool_decide; [by eexists|].
  cbn [ScyllaDBDatacenter.setStatus ScyllaDBDatacenter.Status].
  destruct (updateAggregatedStatusFields_total status Hcounts) as [aggregated ->].
  cbn [mbind option_bind]. destruct (scyllaClient_UpdateStatus sdcc _); by eexists.
Qed.

(** C6, as the code has it.  [calculateStatus] returns a status whose
    aggregated counts are each the [int32] sum of that count over its racks,
    and every status [updateStatus] sends to the store has that property
    too.  The sum starts from zero and wraps around: it is the plain sum
    brought into the [int32] range modulo 2^32, hence the plain sum
    whenever that fits. *)
Theorem aggregated_counts_are_sums (sdc : ScyllaDBDatacenter.t X)
    (statefulSetMap : gmap string StatefulSet.t)
    (status : ScyllaDBDatacenterStatus.t X) :
  (replicasSet statefulSetMap ->
   exists computed,
     calculateStatus imports sdcc sdc statefulSetMap = Some computed /\
     countsAggregated computed) /\
  (Forall countsSet (ScyllaDBDatacenterStatus.Racks status) ->
   exists err sent,
     updateStatus sdcc sdc status = Some (err, sent) /\
     forall object, object ∈ sent ->
       countsAggregated (ScyllaDBDatacenter.Status object)) /\
  (forall counts,
     int32_sum counts = int32_wrap (sumZ counts) /\
     (in_int32 (sumZ counts) -> int32_sum counts = sumZ counts)).
Proof.
  split; [|split].
  - intros Hreplicas.
    destruct (calculateStatus_total sdc statefulSetMap Hreplicas) as [computed Hcalc].
    exists computed. split; [exact Hcalc|].
    by apply calculateStatus_Some in Hcalc as [Hagg _].
  - intros Hcounts.
    destruct (updateStatus_total sdc status Hcounts) as [[err sent] Hsent].
    exists err, sent. split; [exact Hsent|]. intros object Hin.
    apply updateStatus_sent in Hsent as [[_ ->]|(_ & aggregated & Hagg & ->)].
    + by apply elem_of_nil in Hin.
    + apply list_elem_of_singleton in Hin as ->.
      by apply updateAggregatedStatusFields_Some in Hagg as [Hagg _].
  - intros counts. split; [apply int32_sum_wrap|apply int32_sum_exact].
Qed.

(** C10.  The status [calculateStatus] returns is the previous status of the
    datacenter with the observed generation, the racks and the three
    aggregated counts replaced: the conditions and all further fields are
    those of the previous status. *)
Theorem calculateStatus_frame (sdc : ScyllaDBDatacenter.t X)
    (statefulSetMap : gmap string StatefulSet.t) :
  replicasSet statefulSetMap ->
  exists computed,
    calculateStatus imports sdcc sdc statefulSetMap = Some computed /\
    ScyllaDBDatacenterStatus.Conditions computed
      = ScyllaDBDatacenterStatus.Conditions (ScyllaDBDatacenter.Status sdc) /\
    ScyllaDBDatacenterStatus.Other computed
      = ScyllaDBDatacenterStatus.Other (ScyllaDBDatacenter.Status sdc) /\
    computed =
      ScyllaDBDatacenterStatus.setCounts
        (ScyllaDBDatacenterStatus.Nodes computed)
        (ScyllaDBDatacenterStatus.ReadyNodes computed)
        (ScyllaDBDatacenterStatus.AvailableNodes computed)
        (ScyllaDBDatacenterStatus.setRacks (ScyllaDBDatacenterStatus.Racks computed)
           (ScyllaDBDatacenterStatus.setObservedGeneration
              (Some (ScyllaDBDatacenter.Generation sdc))
              (ScyllaDBDatacenter.Status sdc))).
Proof.
  intros Hreplicas.
  destruct (calculateStatus_total sdc statefulSetMap Hreplicas) as [computed Hcalc].
  exists computed. split; [exact Hcalc|].
  apply calculateStatus_Some in Hcalc as [_ Heq].
  split; [by rewrite Heq|]. split; [by rewrite Heq|].
  rewrite Heq at 1. reflexivity.
Qed.

(** ** Persisting the status *)

Lemma setStatus_same (sdc : ScyllaDBDatacenter.t X) :
  ScyllaDBDatacenter.setStatus (ScyllaDBDatacenter.Status sdc) sdc = sdc.
Proof. by destruct sdc. Qed.

Lemma computeStatus_total now (sdc : ScyllaDBDatacenter.t X) statefulSetMap services :
  replicasSet statefulSetMap ->
  is_Some (computeStatus imports sdcc now sdc statefulSetMap services).
Proof.
  intros Hreplicas. unfold computeStatus.
  destruct (calculateStatus_total sdc statefulSetMap Hreplicas) as [s0 ->].
  by eexists.
Qed.

Lemma computeStatus_counts now (sdc : ScyllaDBDatacenter.t X) statefulSetMap services s1 :
  computeStatus imports sdcc now sdc statefulSetMap services = Some s1 ->
  countsAggregated s1.
Proof.
  unfold computeStatus.
  destruct (calculateStatus _ _ _ _) as [s0|] eqn:Hcalc; [|discriminate].
  cbn [mbind option_bind]. intros Heq. injection Heq as <-.
  apply setPrewarmedStatusCondition_counts.
  by apply calculateStatus_Some in Hcalc as [Hagg _].
Qed.

(** C5.  [updateStatus] returns without a write when the status it is given
    equals the stored one, and whenever it sends an object the two differ.
    A pass computes a status; a write of it carries exactly that status; and
    the next pass over the stored result, with the workload objects,
    services and pods unchanged, computes the same status and writes
    nothing. *)
Theorem updateStatus_only_on_change (currentSC : ScyllaDBDatacenter.t X)
    (status : ScyllaDBDatacenterStatus.t X)
    (statefulSetMap : gmap string StatefulSet.t) (services : gmap string Service.t)
    (now now' : Z) :
  (ScyllaDBDatacenter.Status currentSC = status ->
   updateStatus sdcc currentSC status = Some (None, [])) /\
  (forall err sent,
     updateStatus sdcc currentSC status = Some (err, sent) ->
     (sent = [] <-> ScyllaDBDatacenter.Status currentSC = status) /\
     (ScyllaDBDatacenter.Status currentSC <> status ->
      exists aggregated,
        updateAggregatedStatusFields status = Some aggregated /\
        sent = [ScyllaDBDatacenter.setStatus aggregated currentSC])) /\
  (importsIgnoreStatus imports -> replicasSet statefulSetMap ->
   exists computed,
     computeStatus imports sdcc now currentSC statefulSetMap services = Some computed /\
     (exists err sent,
        updateStatus sdcc currentSC computed = Some (err, sent) /\
        forall object, object ∈ sent ->
          object = ScyllaDBDatacenter.setStatus computed currentSC) /\
     (ScyllaDBDatacenter.Status currentSC = computed ->
      ScyllaDBDatacenter.setStatus computed currentSC = currentSC) /\
     computeStatus imports sdcc now' (ScyllaDBDatacenter.setStatus computed currentSC)
       statefulSetMap services = Some computed /\
     updateStatus sdcc (ScyllaDBDatacenter.setStatus computed currentSC) computed
       = Some (None, [])).
Proof.
  split; [|split].
  - intros Heq. unfold updateStatus. by rewrite bool_decide_eq_true_2.
  - intros err sent Hsent.
    apply updateStatus_sent in Hsent as [[Heq ->]|(Hne & aggregated & Hagg & ->)].
    + split; [done|]. by intros [].
    + split; [split; [discriminate|done]|]. intros _. by exists aggregated.
  - intros Hign Hreplicas.
    destruct (computeStatus_total now currentSC statefulSetMap services Hreplicas)
      as [computed Hpass].
    exists computed. split; [exact Hpass|].
    pose proof (computeStatus_counts _ _ _ _ _ Hpass) as Hagg.
    apply updateAggregatedStatusFields_fixed in Hagg.
    split; [|split; [|split]].
    + unfold updateStatus. case_bool_decide as Heq.
      * exists None, []. split; [done|]. intros object Hin. by apply elem_of_nil in Hin.
      * cbn [ScyllaDBDatacenter.setStatus ScyllaDBDatacenter.Status].
        rewrite Hagg. cbn [mbind option_bind].
        destruct (scyllaClient_UpdateStatus sdcc _) as [stored|err].
        -- exists None, [ScyllaDBDatacenter.setStatus computed currentSC].
           split; [done|]. intros object Hin. by apply list_elem_of_singleton in Hin.
        -- exists (Some err), [ScyllaDBDatacenter.setStatus computed currentSC].
           split; [done|]. intros object Hin. by apply list_elem_of_singleton in Hin.
    + intros <-. apply setStatus_same.
    + by apply computeStatus_fixed with (now := now).
    + unfold updateStatus. by rewrite bool_decide_eq_true_2.
Qed.

End StatusProperties.

(** ** The status engine on a concrete datacenter *)

Lemma SampleCluster_calculated :
  calculateStatus SampleCluster.imports (SampleCluster.controller SampleCluster.allReady)
    SampleCluster.dc SampleCluster.statefulSetMap = Some SampleCluster.calculated.
Proof. vm_compute. reflexivity. Qed.

Lemma SampleCluster_computed :
  computeStatus SampleCluster.imports (SampleCluster.controller SampleCluster.allReady)
    2000 SampleCluster.dc SampleCluster.statefulSetMap SampleCluster.services
  = Some SampleCluster.computed.
Proof. vm_compute. reflexivity. Qed.

Lemma SampleCluster_importsIgnoreStatus : importsIgnoreStatus SampleCluster.imports.
Proof. intros sdc st. repeat split. Qed.

Lemma rack_status_staleness_witness :
  exists status,
    calculateRackStatus SampleCluster.imports
      (SampleCluster.controller SampleCluster.allReady) SampleCluster.dc
      (Some SampleCluster.stsA) = Some status /\
    (RackStatus.Stale status = Some true <->
     StatefulSet.Status_ObservedGeneration SampleCluster.stsA
       < StatefulSet.Generation SampleCluster.stsA) /\
    (StatefulSet.Status_ObservedGeneration SampleCluster.stsA
       = StatefulSet.Generation SampleCluster.stsA ->
     RackStatus.Stale status = Some false) /\
    (exists stale, RackStatus.Stale status = Some stale).
Proof.
  exact (proj2 (rack_status_staleness SampleCluster.imports
                  (SampleCluster.controller SampleCluster.allReady) SampleCluster.dc)
           SampleCluster.stsA 3 eq_refl).
Defined.

Lemma SampleCluster_replicasSet : replicasSet SampleCluster.statefulSetMap.
Proof.
  intros name sts Hsts. unfold SampleCluster.statefulSetMap in Hsts.
  apply lookup_singleton_Some in Hsts as [_ <-]. by eexists.
Qed.

Lemma aggregated_counts_are_sums_witness :
  (exists computed,
     calculateStatus SampleCluster.imports
       (SampleCluster.controller SampleCluster.allReady)
       SampleCluster.dc SampleCluster.statefulSetMap = Some computed /\
     countsAggregated computed) /\
  int32_sum [3; 0] = sumZ [3; 0].
Proof.
  destruct (aggregated_counts_are_sums SampleCluster.imports
              (SampleCluster.controller SampleCluster.allReady)
              SampleCluster.dc SampleCluster.statefulSetMap SampleCluster.computed)
    as (Hcalc & _ & Hexact).
  split.
  - apply Hcalc. apply SampleCluster_replicasSet.
  - apply (proj2 (Hexact [3; 0])). unfold in_int32. simpl. lia.
Defined.

(** C6 as stated fails: with two racks of 2^30 replicas each, the sum of
    the rack counts is 2^31, which is not an [int32]; the aggregated node
    count of the computed status is -2^31. *)
Lemma aggregated_counts_overflow :
  exists computed,
    calculateStatus SampleCluster.imports
      (SampleCluster.controller SampleCluster.allReady)
      SampleOverflow.dc SampleOverflow.statefulSetMap = Some computed /\
    mapM RackStatus.Nodes (ScyllaDBDatacenterStatus.Racks computed)
      = Some [1073741824; 1073741824] /\
    sumZ [1073741824; 1073741824] = 2147483648 /\
    ScyllaDBDatacenterStatus.Nodes computed = Some (-2147483648) /\
    ScyllaDBDatacenterStatus.Nodes computed
      <> Some (sumZ [1073741824; 1073741824]).
Proof.
  eexists. split; [vm_compute; reflexivity|].
  split; [reflexivity|]. split; [reflexivity|]. split; [reflexivity|].
  discriminate.
Qed.

Lemma calculateStatus_frame_witness :
  exists computed,
    calculateStatus SampleCluster.imports
      (SampleCluster.controller SampleCluster.allReady)
      SampleCluster.dc SampleCluster.statefulSetMap = Some computed /\
    ScyllaDBDatacenterStatus.Conditions computed = [SampleCluster.available] /\
    ScyllaDBDatacenterStatus.Other computed = "kept".
Proof.
  destruct (calculateStatus_frame SampleCluster.imports
              (SampleCluster.controller SampleCluster.allReady)
              SampleCluster.dc SampleCluster.statefulSetMap
              SampleCluster_replicasSet)
    as (computed & Hcalc & Hconditions & Hother & _).
  exists computed. split; [exact Hcalc|]. split; [exact Hconditions|exact Hother].
Defined.

Lemma updateStatus_only_on_change_witness :
  exists computed,
    computeStatus SampleCluster.imports (SampleCluster.controller SampleCluster.allReady)
      2000 SampleCluster.dc SampleCluster.statefulSetMap SampleCluster.services
    = Some computed /\
    computeStatus SampleCluster.imports (SampleCluster.controller SampleCluster.allReady)
      3000 (ScyllaDBDatacenter.setStatus computed SampleCluster.dc)
      SampleCluster.statefulSetMap SampleCluster.services
    = Some computed /\
    updateStatus (SampleCluster.controller SampleCluster.allReady)
      (ScyllaDBDatacenter.setStatus computed SampleCluster.dc) computed
    = Some (None, []).
Proof.
  destruct (proj2 (proj2 (updateStatus_only_on_change SampleCluster.imports
                            (SampleCluster.controller SampleCluster.allReady)
                            SampleCluster.dc SampleCluster.computed
                            SampleCluster.statefulSetMap SampleCluster.services
                            2000 3000))
              SampleCluster_importsIgnoreStatus SampleCluster_replicasSet)
    as (computed & Hpass & _ & _ & Hsame & Hnowrite).
  exists computed. split; [exact Hpass|]. split; [exact Hsame|exact Hnowrite].
Defined.

Lemma SampleCluster_oneMissing_fails :
  rackLookupFails SampleCluster.imports (SampleCluster.controller SampleCluster.oneMissing)
    SampleCluster.dc SampleCluster.services SampleCluster.rackA.
Proof.
  unfold rackLookupFails. simpl. exists 1. split; [lia|]. right.
  exists (Service.mk "dc-a-1" ∅), (ErrString "pod not found: dc-a-1").
  split; reflexivity.
Qed.

Lemma prewarmed_false_on_lookup_failure_witness :
  notPrewarmed SampleCluster.imports
    (ScyllaDBDatacenterStatus.Conditions
       (setPrewarmedStatusCondition SampleCluster.imports
          (SampleCluster.controller SampleCluster.oneMissing) 2000
          SampleCluster.dc SampleCluster.calculated SampleCluster.services)).
Proof.
  apply (proj1 (prewarmed_false_on_lookup_failure SampleCluster.imports
                  (SampleCluster.controller SampleCluster.oneMissing) 2000
                  SampleCluster.dc SampleCluster.calculated SampleCluster.services)).
  exists SampleCluster.rackA. split; [left|apply SampleCluster_oneMissing_fails].
Defined.

(** C4 as stated fails: a pass in which the pod of a member cannot be found
    and a pass in which every lookup succeeds but a pod is not ready leave
    the same Prewarmed condition, reason and message included. *)
Lemma prewarmed_reason_is_shared :
  (exists rack, rack ∈ ScyllaDBDatacenter.Spec_Racks SampleCluster.dc /\
     rackLookupFails SampleCluster.imports
       (SampleCluster.controller SampleCluster.oneMissing)
       SampleCluster.dc SampleCluster.services rack) /\
  (forall rack, rack ∈ ScyllaDBDatacenter.Spec_Racks SampleCluster.dc ->
     ~ rackLookupFails SampleCluster.imports
         (SampleCluster.controller SampleCluster.oneNotReady)
         SampleCluster.dc SampleCluster.services rack) /\
  setPrewarmedStatusCondition SampleCluster.imports
    (SampleCluster.controller SampleCluster.oneMissing) 2000
    SampleCluster.dc SampleCluster.calculated SampleCluster.services
  = setPrewarmedStatusCondition SampleCluster.imports
      (SampleCluster.controller SampleCluster.oneNotReady) 2000
      SampleCluster.dc SampleCluster.calculated SampleCluster.services.
Proof.
  split; [|split].
  - exists SampleCluster.rackA. split; [left|apply SampleCluster_oneMissing_fails].
  - intros rack Hin Hfail.
    apply elem_of_cons in Hin as [->|Hin];
      [|apply list_elem_of_singleton in Hin as ->].
    + unfold rackLookupFails in Hfail. simpl in Hfail.
      destruct Hfail as (ord & Hord & Hfail).
      assert (ord = 0 \/ ord = 1 \/ ord = 2) as Hcases by lia.
      destruct Hcases as [Hcase|[Hcase|Hcase]]; subst ord;
        (destruct Hfail as [Hnone|(svc & err & Hsvc & Hpod)];
         [vm_compute in Hnone; discriminate|
          vm_compute in Hsvc; injection Hsvc as <-;
          vm_compute in Hpod; discriminate]).
    + unfold rackLookupFails in Hfail. simpl in Hfail.
      destruct Hfail as (ord & Hord & _). lia.
  - vm_compute. reflexivity.
Qed.

(** * Further properties of the probe engine *)

Section ProbeCoverage.
Variable NodeMaintenanceLabel : string.

Ltac hsteps :=
  cbv [hbind hret hreturn call ask WriteHeader whenReturn defer]; simpl.

Lemma readyzScan_calls c hostID l : forall w r,
  exists n,
    calls (snd (readyzScan c hostID l w r))
      = calls r ++ replicate n (CallIsNativeTransportEnabled localhost).
Proof.
  induction l as [|s rest IH]; intros w r.
  - exists 0%nat. simpl. by rewrite app_nil_r.
  - cbn [readyzScan]. destruct (bool_decide _ && _); hsteps.
    + destruct (ScyllaClient.IsNativeTransportEnabled c localhost) as [[|]|err].
      * by exists 1%nat.
      * destruct (IH w {| written := written r;
                          calls := calls r ++ [CallIsNativeTransportEnabled localhost] |})
          as [n Hn].
        exists (S n). destruct (readyzScan c hostID rest w _) as [[u|] r']; simpl in *;
          rewrite Hn; by rewrite <- app_assoc.
      * by exists 1%nat.
    + destruct (IH w r) as [n Hn]. exists n.
      destruct (readyzScan c hostID rest w r) as [[u|] r']; simpl in *; exact Hn.
Qed.

Lemma forallb_replicate {A} (f : A -> bool) n x :
  f x = true -> forallb f (replicate n x) = true.
Proof. intros Hx. induction n as [|n IH]; [done|]. simpl. by rewrite Hx, IH. Qed.

Lemma Readyz_probeRun p w :
  probeRun readyzApiCall p w (runHandler (Readyz NodeMaintenanceLabel p) w).
Proof.
  unfold runHandler, Readyz. hsteps. rewrite awaitPathsExist_run.
  destruct (NewAggregate _) as [agg|].
  { left. exists StatusInternalServerError. split; [set_solver|reflexivity]. }
  destruct (noneAbsent w (awaitPaths p)); simpl.
  2:{ left. exists StatusServiceUnavailable. split; [set_solver|reflexivity]. }
  rewrite isNodeUnderMaintenance_run.
  destruct (serviceLister p (namespace p) (serviceName p)) as [svc|err]; simpl.
  2:{ right. left. exists StatusServiceUnavailable. split; [set_solver|reflexivity]. }
  destruct (bool_decide _); simpl.
  { right. left. exists StatusServiceUnavailable. split; [set_solver|reflexivity]. }
  destruct (NewScyllaClientForLocalhost w) as [c|err] eqn:Hc; simpl.
  2:{ right. right. left. exists err. split; [done|reflexivity]. }
  right. right. right. exists c.
  destruct (ScyllaClient.Status c localhost) as [l|err]; simpl.
  2:{ exists StatusInternalServerError, [CallStatus localhost].
      split; [done|]. split; [set_solver|]. split; [done|].
      unfold lookupCalls. by rewrite <- !app_assoc. }
  destruct (ScyllaClient.GetLocalHostId c localhost false) as [hostID|err]; simpl.
  2:{ exists StatusInternalServerError,
        [CallStatus localhost; CallGetLocalHostId localhost false].
      split; [done|]. split; [set_solver|]. split; [done|].
      unfold lookupCalls. by rewrite <- !app_assoc. }
  match goal with |- context [readyzScan c hostID l ?w' ?r'] =>
    pose proof (readyzScan_run c hostID l w' r') as Hscan;
    destruct (readyzScan_calls c hostID l w' r') as [n Hn];
    destruct (readyzScan c hostID l w' r') as [o r'']
  end.
  cbn [fst snd calls written] in Hscan, Hn.
  exists (default StatusServiceUnavailable (scanOutcome c hostID l)),
    ([CallStatus localhost; CallGetLocalHostId localhost false]
       ++ replicate n (CallIsNativeTransportEnabled localhost)).
  split; [done|]. split.
  { unfold scanOutcome. destruct (existsb _ _); [|set_solver].
    destruct (ScyllaClient.IsNativeTransportEnabled c localhost) as [[|]|];
      set_solver. }
  split.
  { simpl. by apply forallb_replicate. }
  destruct (scanOutcome c hostID l) as [code|]; destruct Hscan as [-> Hw];
    simpl; rewrite Hw, Hn; unfold lookupCalls; simpl;
    by rewrite <- !app_assoc.
Qed.

Lemma Healthz_probeRun p w :
  probeRun healthzApiCall p w (runHandler (Healthz NodeMaintenanceLabel p) w).
Proof.
  unfold runHandler, Healthz. hsteps. rewrite awaitPathsExist_run.
  destruct (NewAggregate _) as [agg|].
  { left. exists StatusInternalServerError. split; [set_solver|reflexivity]. }
  destruct (noneAbsent w (awaitPaths p)); simpl.
  2:{ left. exists StatusOK. split; [set_solver|reflexivity]. }
  rewrite isNodeUnderMaintenance_run.
  destruct (serviceLister p (namespace p) (serviceName p)) as [svc|err]; simpl.
  2:{ right. left. exists StatusServiceUnavailable. split; [set_solver|reflexivity]. }
  destruct (bool_decide _); simpl.
  { right. left. exists StatusOK. split; [set_solver|reflexivity]. }
  destruct (NewScyllaClientForLocalhost w) as [c|err] eqn:Hc; simpl.
  2:{ right. right. left. exists err. split; [done|reflexivity]. }
  right. right. right. exists c.
  destruct (ScyllaClient.Ping c localhost) as [rtt|err]; simpl.
  - exists StatusOK, [CallPing localhost].
    split; [done|]. split; [set_solver|]. split; [done|].
    unfold lookupCalls. by rewrite <- !app_assoc.
  - exists StatusServiceUnavailable, [CallPing localhost].
    split; [done|]. split; [set_solver|]. split; [done|].
    unfold lookupCalls. by rewrite <- !app_assoc.
Qed.

Lemma statusCodes_elem code :
  code ∈ statusCodes <->
  code = StatusOK \/ code = StatusInternalServerError \/ code = StatusServiceUnavailable.
Proof.
  unfold statusCodes. rewrite !elem_of_cons, elem_of_nil. tauto.
Qed.

Lemma probeRun_written api p w r :
  probeRun api p w r -> exists code, written r = [code] /\ code ∈ statusCodes.
Proof.
  intros [(code & Hcode & ->)|[(code & Hcode & ->)|[(e & _ & ->)|
           (c & code & apiCalls & _ & Hcode & _ & ->)]]]; simpl; eauto.
  exists StatusInternalServerError. split; [done|]. apply statusCodes_elem. auto.
Qed.

(** X1.  Whatever the filesystem, the service lister and the node answer,
    [Readyz] and [Healthz] each call [WriteHeader] exactly once, with 200,
    500 or 503. *)
Theorem probes_write_exactly_one_code (p : Prober) (w : World) :
  (exists code,
     wrote (Readyz NodeMaintenanceLabel p) w = [code] /\
     (code = StatusOK \/ code = StatusInternalServerError \/
      code = StatusServiceUnavailable)) /\
  (exists code,
     wrote (Healthz NodeMaintenanceLabel p) w = [code] /\
     (code = StatusOK \/ code = StatusInternalServerError \/
      code = StatusServiceUnavailable)).
Proof.
  split.
  - destruct (probeRun_written _ _ _ _ (Readyz_probeRun p w)) as (code & Hw & Hcode).
    exists code. split; [exact Hw|]. by apply statusCodes_elem.
  - destruct (probeRun_written _ _ _ _ (Healthz_probeRun p w)) as (code & Hw & Hcode).
    exists code. split; [exact Hw|]. by apply statusCodes_elem.
Qed.

Lemma lookupCalls_lifecycle p x :
  x ∈ lookupCalls p -> (exists path, x = CallStat path) \/
                       x = CallGetService (namespace p) (serviceName p).
Proof.
  unfold lookupCalls. rewrite elem_of_app, list_elem_of_fmap, list_elem_of_singleton.
  intros [(path & -> & _)| ->]; eauto.
Qed.

Lemma probeRun_client api p w r :
  (forall x, api x = true -> x <> CallClose /\ x <> CallNewScyllaClient) ->
  probeRun api p w r ->
  (forall c, NewScyllaClientForLocalhost w = Ok c ->
     CallNewScyllaClient ∈ calls r -> last (calls r) = Some CallClose) /\
  (CallClose ∈ calls r ->
     CallNewScyllaClient ∈ calls r /\
     exists c, NewScyllaClientForLocalhost w = Ok c).
Proof.
  intros Hapi [(code & _ & ->)|[(code & _ & ->)|[(e & He & ->)|
                 (c & code & apiCalls & Hc & _ & Hcalls & ->)]]]; cbn [calls].
  - split.
    + intros c _ Hin. unfold statCalls in Hin.
      apply list_elem_of_fmap in Hin as (path & Heq & _). discriminate.
    + intros Hin. unfold statCalls in Hin.
      apply list_elem_of_fmap in Hin as (path & Heq & _). discriminate.
  - split.
    + intros c _ Hin. apply lookupCalls_lifecycle in Hin as [(path & Heq)|Heq];
        discriminate.
    + intros Hin. apply lookupCalls_lifecycle in Hin as [(path & Heq)|Heq];
        discriminate.
  - split.
    + intros c Hc. congruence.
    + intros Hin. apply elem_of_app in Hin as [Hin|Hin].
      * apply lookupCalls_lifecycle in Hin as [(path & Heq)|Heq]; discriminate.
      * apply list_elem_of_singleton in Hin. discriminate.
  - split.
    + intros _ _ _. rewrite !app_assoc. apply last_snoc.
    + intros _. split; [|eauto]. apply elem_of_app. right. left.
Qed.

(** X2.  A probe that created a client of the node ends with closing it,
    whichever way it returns; a probe closes a client only after it created
    one. *)
Theorem client_closed_whenever_created (p : Prober) (w : World) :
  ((forall c, NewScyllaClientForLocalhost w = Ok c ->
      CallNewScyllaClient ∈ calls (runHandler (Readyz NodeMaintenanceLabel p) w) ->
      last (calls (runHandler (Readyz NodeMaintenanceLabel p) w)) = Some CallClose) /\
   (CallClose ∈ calls (runHandler (Readyz NodeMaintenanceLabel p) w) ->
      CallNewScyllaClient ∈ calls (runHandler (Readyz NodeMaintenanceLabel p) w) /\
      exists c, NewScyllaClientForLocalhost w = Ok c)) /\
  ((forall c, NewScyllaClientForLocalhost w = Ok c ->
      CallNewScyllaClient ∈ calls (runHandler (Healthz NodeMaintenanceLabel p) w) ->
      last (calls (runHandler (Healthz NodeMaintenanceLabel p) w)) = Some CallClose) /\
   (CallClose ∈ calls (runHandler (Healthz NodeMaintenanceLabel p) w) ->
      CallNewScyllaClient ∈ calls (runHandler (Healthz NodeMaintenanceLabel p) w) /\
      exists c, NewScyllaClientForLocalhost w = Ok c)).
Proof.
  split.
  - apply (probeRun_client readyzApiCall p w); [|apply Readyz_probeRun].
    intros x Hx. split; intros ->; discriminate.
  - apply (probeRun_client healthzApiCall p w); [|apply Healthz_probeRun].
    intros x Hx. split; intros ->; discriminate.
Qed.

Lemma probeRun_calls api p w r :
  probeRun api p w r -> forallb (fun c => lifecycleCall c || api c) (calls r) = true.
Proof.
  assert (Hstat : forall paths,
    forallb (fun c => lifecycleCall c || api c) (map CallStat paths) = true).
  { induction paths as [|path rest IH]; [done|]. simpl. exact IH. }
  assert (Hlookup : forallb (fun c => lifecycleCall c || api c) (lookupCalls p) = true).
  { unfold lookupCalls. rewrite forallb_app, Hstat. reflexivity. }
  intros [(code & _ & ->)|[(code & _ & ->)|[(e & _ & ->)|
           (c & code & apiCalls & _ & _ & Hcalls & ->)]]]; cbn [calls].
  - apply Hstat.
  - apply Hlookup.
  - by rewrite forallb_app, Hlookup.
  - rewrite !forallb_app, Hlookup. cbn [forallb lifecycleCall orb andb].
    rewrite andb_true_r. apply forallb_forall. intros x Hx.
    rewrite forallb_forall in Hcalls. rewrite (Hcalls x Hx). apply orb_true_r.
Qed.

(** X3.  Besides the stats, the service lookup and the creation and closing
    of the client, [Readyz] only asks the node for the node statuses, the
    host identifier and the native transport, and [Healthz] only pings it:
    [Readyz] never pings and [Healthz] never asks for the cluster state. *)
Theorem probes_call_only_their_api (p : Prober) (w : World) :
  forallb (fun c => lifecycleCall c || readyzApiCall c)
    (calls (runHandler (Readyz NodeMaintenanceLabel p) w)) = true /\
  forallb (fun c => lifecycleCall c || healthzApiCall c)
    (calls (runHandler (Healthz NodeMaintenanceLabel p) w)) = true.
Proof.
  split.
  - apply (probeRun_calls readyzApiCall p w), Readyz_probeRun.
  - apply (probeRun_calls healthzApiCall p w), Healthz_probeRun.
Qed.

(** X4.  Past the await-paths and maintenance checks, [Healthz] writes 500
    when the client cannot be built, 503 when the ping fails and 200 when
    the ping succeeds; a client that was built is pinged once and closed. *)
Theorem healthz_database_phase (p : Prober) (w : World) :
  awaitPathsPass w p -> notUnderMaintenance NodeMaintenanceLabel p ->
  (forall e, NewScyllaClientForLocalhost w = Err e ->
     runHandler (Healthz NodeMaintenanceLabel p) w
       = {| written := [StatusInternalServerError];
            calls := lookupCalls p ++ [CallNewScyllaClient] |}) /\
  (forall c e, NewScyllaClientForLocalhost w = Ok c ->
     ScyllaClient.Ping c localhost = Err e ->
     runHandler (Healthz NodeMaintenanceLabel p) w
       = {| written := [StatusServiceUnavailable];
            calls := lookupCalls p
                       ++ [CallNewScyllaClient; CallPing localhost; CallClose] |}) /\
  (forall c rtt, NewScyllaClientForLocalhost w = Ok c ->
     ScyllaClient.Ping c localhost = Ok rtt ->
     runHandler (Healthz NodeMaintenanceLabel p) w
       = {| written := [StatusOK];
            calls := lookupCalls p
                       ++ [CallNewScyllaClient; CallPing localhost; CallClose] |}).
Proof.
  intros Hpass (svc & Hsvc & Hlabel).
  split; [|split]; intros; unfold runHandler, Healthz; hsteps;
    rewrite (awaitPathsPass_run _ _ _ Hpass); hsteps;
    rewrite isNodeUnderMaintenance_run, Hsvc; hsteps; rewrite Hlabel; hsteps.
  - rewrite H. simpl. reflexivity.
  - rewrite H. simpl. rewrite H0. simpl. unfold lookupCalls.
    by rewrite <- !app_assoc.
  - rewrite H. simpl. rewrite H0. simpl. unfold lookupCalls.
    by rewrite <- !app_assoc.
Qed.

Lemma noneAbsent_true w paths :
  noneAbsent w paths = true ->
  forall path err, path ∈ paths -> os_Stat w path = Some err ->
    errors_Is_NotExist err = false.
Proof.
  unfold noneAbsent. rewrite forallb_forall. intros Hall path err Hin Hs.
  apply list_elem_of_In in Hin. specialize (Hall path Hin). rewrite Hs in Hall.
  by destruct (errors_Is_NotExist err).
Qed.

(** X5.  [awaitPathsExist] stats every configured path once, in the order of
    the list, whatever the earlier stats returned, and writes nothing; it
    reports the paths ready and no error exactly when every stat succeeds,
    which includes the empty list. *)
Theorem awaitPathsExist_stats_every_path (p : Prober) (w : World) (r : Run) :
  calls (snd (awaitPathsExist p w r)) = calls r ++ map CallStat (awaitPaths p) /\
  written (snd (awaitPathsExist p w r)) = written r /\
  (exists ready err, fst (awaitPathsExist p w r) = Some (ready, err)) /\
  (fst (awaitPathsExist p w r) = Some (true, None) <-> awaitPathsPass w p).
Proof.
  rewrite awaitPathsExist_run. cbn [fst snd addCalls calls written].
  split; [done|]. split; [done|].
  split; [destruct (NewAggregate _); by do 2 eexists|]. split.
  - intros Hres path Hin.
    destruct (statErrors w (awaitPaths p)) as [|e l] eqn:Herrs; [|discriminate].
    cbn [NewAggregate] in Hres. injection Hres as Hnone.
    destruct (os_Stat w path) as [err|] eqn:Hs; [|done].
    pose proof (noneAbsent_true _ _ Hnone path err Hin Hs) as Hne.
    assert (He : ErrWrap ("can't stat path " +:+ fmt_q path) err
                   ∈ statErrors w (awaitPaths p)).
    { apply statErrors_elem. eauto 10. }
    rewrite Herrs in He. by apply elem_of_nil in He.
  - intros Hpass.
    pose proof (awaitPathsPass_run w p r Hpass) as Hrun.
    rewrite awaitPathsExist_run in Hrun. by injection Hrun as ->.
Qed.

Lemma awaitPathsExist_not_ready p w r :
  (exists path, path ∈ awaitPaths p /\ is_Some (os_Stat w path)) ->
  exists err,
    awaitPathsExist p w r = (Some (false, err), addCalls (map CallStat (awaitPaths p)) r).
Proof.
  intros (path & Hin & [e He]). rewrite awaitPathsExist_run.
  destruct (NewAggregate _) as [agg|] eqn:Hagg; [by eexists|].
  exists None. do 3 f_equal.
  destruct (noneAbsent w (awaitPaths p)) eqn:Hnone; [|done].
  pose proof (noneAbsent_true _ _ Hnone path e Hin He) as Hne.
  assert (Hw : ErrWrap ("can't stat path " +:+ fmt_q path) e
                 ∈ statErrors w (awaitPaths p)).
  { apply statErrors_elem. eauto 10. }
  destruct (statErrors w (awaitPaths p)); [by apply elem_of_nil in Hw|discriminate].
Qed.

(** X6.  The await-paths check comes first: when the stat of some configured
    path fails, for whatever reason, both probes return after the stats,
    without looking up the service and without creating a client, and
    [Readyz] does not report ready. *)
Theorem await_paths_checked_first (p : Prober) (w : World) :
  (exists path, path ∈ awaitPaths p /\ is_Some (os_Stat w path)) ->
  calls (runHandler (Readyz NodeMaintenanceLabel p) w) = statCalls p /\
  calls (runHandler (Healthz NodeMaintenanceLabel p) w) = statCalls p /\
  (wrote (Readyz NodeMaintenanceLabel p) w = [StatusInternalServerError] \/
   wrote (Readyz NodeMaintenanceLabel p) w = [StatusServiceUnavailable]).
Proof.
  intros Hfail. unfold wrote, runHandler, Readyz, Healthz. hsteps.
  destruct (awaitPathsExist_not_ready p w emptyRun Hfail) as [err ->].
  destruct err as [err|]; simpl; auto.
Qed.

Lemma readyzScan_no_entry c hostID l :
  existsb (isLocalUN hostID) l = false ->
  forall w r, readyzScan c hostID l w r = (Some tt, r).
Proof.
  induction l as [|s rest IH]; intros Hnone w r; [reflexivity|].
  cbn [existsb] in Hnone. apply orb_false_elim in Hnone as [Hs Hrest].
  cbn [readyzScan]. unfold isLocalUN in Hs. rewrite Hs. hsteps.
  by rewrite (IH Hrest).
Qed.

(** X7.  Past the two checks, with a client, a node-status list and a host
    identifier, when no entry of the list has the local host identifier in
    the up/normal state (the empty list included), [Readyz] writes 503
    without asking for the native transport. *)
Theorem readyz_without_local_entry (p : Prober) (w : World) (c : ScyllaClient.t)
    (l : list NodeStatusInfo.t) (hostID : string) :
  awaitPathsPass w p -> notUnderMaintenance NodeMaintenanceLabel p ->
  NewScyllaClientForLocalhost w = Ok c ->
  ScyllaClient.Status c localhost = Ok l ->
  ScyllaClient.GetLocalHostId c localhost false = Ok hostID ->
  (forall s, s ∈ l ->
     NodeStatusInfo.HostID s <> hostID \/ NodeStatusInfo.IsUN s = false) ->
  runHandler (Readyz NodeMaintenanceLabel p) w
    = {| written := [StatusServiceUnavailable];
         calls := lookupCalls p
                    ++ [CallNewScyllaClient; CallStatus localhost;
                        CallGetLocalHostId localhost false; CallClose] |}.
Proof.
  intros Hpass (svc & Hsvc & Hlabel) Hc Hl Hh Hnone.
  assert (Hex : existsb (isLocalUN hostID) l = false).
  { apply not_true_is_false. intros Hex.
    apply existsb_exists in Hex as (s & Hin & Hs).
    apply list_elem_of_In in Hin. apply andb_prop in Hs as [Hid Hun].
    apply bool_decide_eq_true_1 in Hid.
    destruct (Hnone s Hin) as [Hne|Hne]; congruence. }
  unfold runHandler, Readyz. hsteps.
  rewrite (awaitPathsPass_run _ _ _ Hpass). hsteps.
  rewrite isNodeUnderMaintenance_run, Hsvc. hsteps. rewrite Hlabel. hsteps.
  rewrite Hc. simpl. rewrite Hl. simpl. rewrite Hh. simpl.
  rewrite (readyzScan_no_entry c hostID l Hex). simpl.
  unfold lookupCalls. by rewrite <- !app_assoc.
Qed.

End ProbeCoverage.

Lemma healthz_database_phase_witness :
  runHandler (Healthz Sample.maintenanceLabel
                (Sample.prober (Ok Sample.plainService) ["/ready"]))
             (Sample.allPresent
                (Ok (Sample.client (Ok []) (Ok "h1") (Ok true) (Err Sample.refused))))
    = {| written := [StatusServiceUnavailable];
         calls := [CallStat "/ready"; CallGetService "scylla" "dc-rack-0";
                   CallNewScyllaClient; CallPing localhost; CallClose] |}.
Proof.
  refine (proj1 (proj2 (healthz_database_phase Sample.maintenanceLabel _ _
                          (Sample_awaitPathsPass _ _ _)
                          (Sample_notUnderMaintenance _)))
            (Sample.client (Ok []) (Ok "h1") (Ok true) (Err Sample.refused))
            Sample.refused eq_refl eq_refl).
Defined.

Lemma await_paths_checked_first_witness :
  calls (runHandler (Readyz Sample.maintenanceLabel
                       (Sample.prober (Ok Sample.plainService) ["/ready"; "/denied"]))
                    (Sample.oneDenied (Ok Sample.goodClient)))
    = [CallStat "/ready"; CallStat "/denied"].
Proof.
  refine (proj1 (await_paths_checked_first Sample.maintenanceLabel
                   (Sample.prober (Ok Sample.plainService) ["/ready"; "/denied"])
                   (Sample.oneDenied (Ok Sample.goodClient)) _)).
  exists "/ready". split; [left|]. eexists. reflexivity.
Defined.

Lemma readyz_without_local_entry_witness :
  runHandler (Readyz Sample.maintenanceLabel
                (Sample.prober (Ok Sample.plainService) ["/ready"]))
             (Sample.allPresent
                (Ok (Sample.client (Ok [Sample.joining "h1"; Sample.un "h2"])
                       (Ok "h1") (Ok true) (Ok 1))))
    = {| written := [StatusServiceUnavailable];
         calls := [CallStat "/ready"; CallGetService "scylla" "dc-rack-0";
                   CallNewScyllaClient; CallStatus localhost;
                   CallGetLocalHostId localhost false; CallClose] |}.
Proof.
  refine (readyz_without_local_entry Sample.maintenanceLabel _ _
            (Sample.client (Ok [Sample.joining "h1"; Sample.un "h2"])
               (Ok "h1") (Ok true) (Ok 1))
            [Sample.joining "h1"; Sample.un "h2"] "h1"
            (Sample_awaitPathsPass _ _ _) (Sample_notUnderMaintenance _)
            eq_refl eq_refl eq_refl _).
  intros s Hin. apply elem_of_cons in Hin as [->|Hin].
  - right. reflexivity.
  - apply list_elem_of_singleton in Hin as ->. left. discriminate.
Defined.

(** * Further properties of the status engine *)

Section StatusCoverage.
Context {X : Type} `{EqDecision X}.
Variable imports : Imports X.
Variable sdcc : Controller X.

(** ** The racks of a computed status *)

Lemma calculateRacksLoop_mapM (sdc : ScyllaDBDatacenter.t X)
    (statefulSetMap : gmap string StatefulSet.t) rackSpecs :
  forall racks,
    calculateRacksLoop imports sdcc sdc statefulSetMap rackSpecs racks
      = (computed ← mapM (rackStatusOf imports sdcc sdc statefulSetMap) rackSpecs;
         Some (racks ++ computed)).
Proof.
  set (F := rackStatusOf imports sdcc sdc statefulSetMap).
  induction rackSpecs as [|rack rest IH]; intros racks.
  - simpl. by rewrite app_nil_r.
  - cbn [calculateRacksLoop].
    change (mapM F (rack :: rest))
      with (y ← F rack; k ← mapM F rest; mret (y :: k)).
    change (calculateRackStatus imports sdcc sdc
              (statefulSetMap !! StatefulSetNameForRack imports rack sdc))
      with (F rack).
    destruct (F rack) as [rackStatus|]; [|reflexivity].
    cbn [mbind option_bind]. rewrite IH.
    destruct (mapM F rest) as [computed|]; [|reflexivity].
    cbn [mbind option_bind mret option_ret]. by rewrite <- app_assoc.
Qed.

(** X8.  The racks of the status [calculateStatus] returns are the statuses
    of the rack specifications of the datacenter, one for each and in their
    order, whether or not a rack has a workload object; the observed
    generation is the generation of the datacenter. *)
Theorem calculateStatus_racks_follow_spec (sdc : ScyllaDBDatacenter.t X)
    (statefulSetMap : gmap string StatefulSet.t) :
  replicasSet statefulSetMap ->
  exists computed,
    calculateStatus imports sdcc sdc statefulSetMap = Some computed /\
    mapM (rackStatusOf imports sdcc sdc statefulSetMap) (ScyllaDBDatacenter.Spec_Racks sdc)
      = Some (ScyllaDBDatacenterStatus.Racks computed) /\
    length (ScyllaDBDatacenterStatus.Racks computed)
      = length (ScyllaDBDatacenter.Spec_Racks sdc) /\
    ScyllaDBDatacenterStatus.ObservedGeneration computed
      = Some (ScyllaDBDatacenter.Generation sdc).
Proof.
  intros Hreplicas.
  destruct (calculateStatus_total imports sdcc sdc statefulSetMap Hreplicas)
    as [computed Hcalc].
  exists computed. split; [exact Hcalc|].
  rewrite calculateStatus_eq, calculateRacksLoop_mapM in Hcalc.
  destruct (mapM _ _) as [racks|] eqn:Hracks; [|discriminate].
  cbn [mbind option_bind app] in Hcalc.
  destruct (aggregateLoop racks 0 0 0) as [[[n r] a]|]; [|discriminate].
  injection Hcalc as <-. cbn [ScyllaDBDatacenterStatus.Racks
    ScyllaDBDatacenterStatus.ObservedGeneration].
  split; [done|]. split; [|done].
  symmetry. by apply length_mapM in Hracks.
Qed.

Lemma aggregateLoop_zero n :
  aggregateLoop (replicate n zeroRackStatus) 0 0 0 = Some (0, 0, 0).
Proof. induction n as [|n IH]; [reflexivity|]. exact IH. Qed.

(** X9.  When no rack of the datacenter has its workload object in the map
    (an empty map, or a datacenter without racks), [calculateStatus] returns
    one zero-valued, stale status for each rack and aggregated counts of
    zero. *)
Theorem calculateStatus_without_workloads (sdc : ScyllaDBDatacenter.t X)
    (statefulSetMap : gmap string StatefulSet.t) :
  (forall rack, rack ∈ ScyllaDBDatacenter.Spec_Racks sdc ->
     statefulSetMap !! StatefulSetNameForRack imports rack sdc = None) ->
  calculateStatus imports sdcc sdc statefulSetMap
    = Some (ScyllaDBDatacenterStatus.mk
              (Some (ScyllaDBDatacenter.Generation sdc))
              (ScyllaDBDatacenterStatus.Conditions (ScyllaDBDatacenter.Status sdc))
              (replicate (length (ScyllaDBDatacenter.Spec_Racks sdc)) zeroRackStatus)
              (Some 0) (Some 0) (Some 0)
              (ScyllaDBDatacenterStatus.Other (ScyllaDBDatacenter.Status sdc))).
Proof.
  intros Hnone. rewrite calculateStatus_eq, calculateRacksLoop_mapM.
  assert (Hracks : mapM (rackStatusOf imports sdcc sdc statefulSetMap)
                     (ScyllaDBDatacenter.Spec_Racks sdc)
                   = Some (replicate (length (ScyllaDBDatacenter.Spec_Racks sdc))
                             zeroRackStatus)).
  { set (F := rackStatusOf imports sdcc sdc statefulSetMap).
    induction (ScyllaDBDatacenter.Spec_Racks sdc) as [|rack rest IH]; [reflexivity|].
    change (mapM F (rack :: rest))
      with (y ← F rack; k ← mapM F rest; mret (y :: k)).
    assert (Hrack : F rack = Some zeroRackStatus).
    { unfold F, rackStatusOf. rewrite Hnone by left. reflexivity. }
    rewrite Hrack, IH; [reflexivity|].
    intros rack' Hin. apply Hnone. by right. }
  rewrite Hracks. cbn [mbind option_bind app]. by rewrite aggregateLoop_zero.
Qed.

(** X10.  [calculateStatus] reads of the stored status only the conditions
    and the fields it does not compute: stored racks, counts and observed
    generation have no influence on what it returns. *)
Theorem calculateStatus_ignores_stored_counts (sdc : ScyllaDBDatacenter.t X)
    (statefulSetMap : gmap string StatefulSet.t)
    (stored : ScyllaDBDatacenterStatus.t X) :
  importsIgnoreStatus imports ->
  ScyllaDBDatacenterStatus.Conditions stored
    = ScyllaDBDatacenterStatus.Conditions (ScyllaDBDatacenter.Status sdc) ->
  ScyllaDBDatacenterStatus.Other stored
    = ScyllaDBDatacenterStatus.Other (ScyllaDBDatacenter.Status sdc) ->
  calculateStatus imports sdcc (ScyllaDBDatacenter.setStatus stored sdc) statefulSetMap
    = calculateStatus imports sdcc sdc statefulSetMap.
Proof.
  intros Hign Hconditions Hother. rewrite !calculateStatus_eq.
  rewrite calculateRacksLoop_setStatus by exact Hign.
  cbn [ScyllaDBDatacenter.setStatus ScyllaDBDatacenter.Spec_Racks
       ScyllaDBDatacenter.Generation ScyllaDBDatacenter.Status].
  by rewrite Hconditions, Hother.
Qed.

(** ** Versions of a rack *)

(** X11.  For a workload object with its replica count set, the updated
    version of the rack is the version of the configured image.  With zero
    replicas the current version is that same version and no pod is read:
    the status is the same under every pod lister.  Otherwise a current version that is not empty is the version of the
    containers of the first member pod, and that pod has a controller
    reference carrying the UID of the workload object; a first member pod
    controlled by anything else leaves the current version empty. *)
Theorem rack_versions (sdc : ScyllaDBDatacenter.t X) (sts : StatefulSet.t)
    (replicas : Z) :
  StatefulSet.Spec_Replicas sts = Some replicas ->
  exists status,
    calculateRackStatus imports sdcc sdc (Some sts) = Some status /\
    RackStatus.UpdatedVersion status
      = fst (ImageToVersion imports (ScyllaDBDatacenter.Spec_ScyllaDB_Image sdc)) /\
    (replicas = 0 -> RackStatus.CurrentVersion status = RackStatus.UpdatedVersion status) /\
    (replicas = 0 ->
     forall other : Controller X,
       calculateRackStatus imports other sdc (Some sts) = Some status) /\
    (replicas <> 0 -> RackStatus.CurrentVersion status <> "" ->
     exists pod ref,
       podLister sdcc (StatefulSet.Namespace sts) (StatefulSet.Name sts +:+ "-0") = Ok pod /\
       GetControllerOfNoCopy pod = Some ref /\
       OwnerReference.UID ref = StatefulSet.UID sts /\
       ScyllaVersion imports (Pod.Spec_Containers pod)
         = Ok (RackStatus.CurrentVersion status)) /\
    (replicas <> 0 ->
     forall pod,
       podLister sdcc (StatefulSet.Namespace sts) (StatefulSet.Name sts +:+ "-0") = Ok pod ->
       (forall ref, GetControllerOfNoCopy pod = Some ref ->
          OwnerReference.UID ref <> StatefulSet.UID sts) ->
       RackStatus.CurrentVersion status = "").
Proof.
  intros Hreplicas. unfold calculateRackStatus. rewrite Hreplicas.
  cbn [mbind option_bind]. eexists. split; [reflexivity|].
  cbn [RackStatus.UpdatedVersion RackStatus.CurrentVersion].
  split; [reflexivity|]. split; [|split; [|split]].
  - intros ->. reflexivity.
  - intros -> other. reflexivity.
  - intros Hne Hversion.
    rewrite (bool_decide_eq_false_2 (Some replicas = Some 0)) in Hversion by congruence.
    rewrite andb_false_r in Hversion. unfold getScyllaVersion in Hversion |- *.
    rewrite (bool_decide_eq_false_2 (Some replicas = Some 0)) by congruence.
    rewrite andb_false_r.
    destruct (podLister sdcc _ _) as [pod|] eqn:Hpod; [|done].
    destruct (GetControllerOfNoCopy pod) as [ref|] eqn:Href; [|done].
    destruct (bool_decide (OwnerReference.UID ref = StatefulSet.UID sts)) eqn:Huid;
      cbn [negb] in *; [|done].
    apply bool_decide_eq_true_1 in Huid.
    destruct (ScyllaVersion imports _) as [version|] eqn:Hv; [|done].
    by exists pod, ref.
  - intros Hne pod Hpod Hforeign.
    rewrite (bool_decide_eq_false_2 (Some replicas = Some 0)) by congruence.
    rewrite andb_false_r. unfold getScyllaVersion. rewrite Hpod.
    destruct (GetControllerOfNoCopy pod) as [ref|]; [|reflexivity].
    rewrite (bool_decide_eq_false_2 _ (Hforeign ref eq_refl)). reflexivity.
Qed.

(** ** Aggregation *)

Lemma aggregateLoop_countsSet racks : forall n r a,
  is_Some (aggregateLoop racks n r a) -> Forall countsSet racks.
Proof.
  induction racks as [|rack rest IH]; intros n r a Hsome; [constructor|].
  cbn [aggregateLoop] in Hsome.
  destruct (RackStatus.Nodes rack) as [x|] eqn:Hx; [|by destruct Hsome].
  destruct (RackStatus.ReadyNodes rack) as [y|] eqn:Hy; [|by destruct Hsome].
  destruct (RackStatus.AvailableNodes rack) as [z|] eqn:Hz; [|by destruct Hsome].
  cbn [mbind option_bind] in Hsome. constructor; [|by eapply IH].
  unfold countsSet. rewrite Hx, Hy, Hz. eauto.
Qed.

(** X12.  [updateAggregatedStatusFields] completes exactly when every rack
    status of the list has its node, ready and available counts set; a rack
    with a nil count makes it panic, wherever the rack is in the list and
    whatever the aggregated counts were. *)
Theorem updateAggregatedStatusFields_defined_iff (status : ScyllaDBDatacenterStatus.t X) :
  is_Some (updateAggregatedStatusFields status) <->
  Forall countsSet (ScyllaDBDatacenterStatus.Racks status).
Proof.
  split.
  - unfold updateAggregatedStatusFields. intros Hsome.
    apply (aggregateLoop_countsSet _ 0 0 0).
    destruct (aggregateLoop _ 0 0 0); [by eexists|by destruct Hsome].
  - apply updateAggregatedStatusFields_total.
Qed.

(** X13.  [updateAggregatedStatusFields] overwrites the three aggregated
    counts and nothing else: its result does not depend on the counts the
    status had, the racks, the conditions, the observed generation and the
    further fields are kept, and aggregating the result once more returns
    it unchanged. *)
Theorem updateAggregatedStatusFields_overwrites
    (status aggregated : ScyllaDBDatacenterStatus.t X) :
  updateAggregatedStatusFields status = Some aggregated ->
  (forall n r a,
     updateAggregatedStatusFields (ScyllaDBDatacenterStatus.setCounts n r a status)
       = Some aggregated) /\
  updateAggregatedStatusFields aggregated = Some aggregated /\
  ScyllaDBDatacenterStatus.Racks aggregated = ScyllaDBDatacenterStatus.Racks status /\
  ScyllaDBDatacenterStatus.Conditions aggregated
    = ScyllaDBDatacenterStatus.Conditions status /\
  ScyllaDBDatacenterStatus.ObservedGeneration aggregated
    = ScyllaDBDatacenterStatus.ObservedGeneration status /\
  ScyllaDBDatacenterStatus.Other aggregated = ScyllaDBDatacenterStatus.Other status.
Proof.
  intros Hagg. split; [|split].
  - intros n r a. rewrite <- Hagg. reflexivity.
  - apply updateAggregatedStatusFields_fixed.
    by apply updateAggregatedStatusFields_Some in Hagg as [Hcounts _].
  - apply updateAggregatedStatusFields_Some in Hagg as [_ (n & r & a & ->)].
    by repeat split.
Qed.

(** ** Persisting *)

(** X14.  [updateStatus] makes at most one write and does not retry: it
    returns an error exactly when the write it made failed, and the error is
    the one the client returned.  The object it sends has the namespace,
    name, generation and specification of the stored one. *)
Theorem updateStatus_returns_write_error (currentSC : ScyllaDBDatacenter.t X)
    (status : ScyllaDBDatacenterStatus.t X) (err : option error)
    (sent : list (ScyllaDBDatacenter.t X)) :
  updateStatus sdcc currentSC status = Some (err, sent) ->
  (length sent <= 1)%nat /\
  (forall e, err = Some e <->
     exists object, sent = [object] /\ scyllaClient_UpdateStatus sdcc object = Err e) /\
  (forall object, object ∈ sent ->
     ScyllaDBDatacenter.Namespace object = ScyllaDBDatacenter.Namespace currentSC /\
     ScyllaDBDatacenter.Name object = ScyllaDBDatacenter.Name currentSC /\
     ScyllaDBDatacenter.Generation object = ScyllaDBDatacenter.Generation currentSC /\
     ScyllaDBDatacenter.Spec_ScyllaDB_Image object
       = ScyllaDBDatacenter.Spec_ScyllaDB_Image currentSC /\
     ScyllaDBDatacenter.Spec_Racks object = ScyllaDBDatacenter.Spec_Racks currentSC).
Proof.
  unfold updateStatus. case_bool_decide as Heq.
  - intros Hres. injection Hres as <- <-. split; [simpl; lia|]. split.
    + intros e. split; [discriminate|]. intros (object & Hsent & _). discriminate.
    + intros object Hin. by apply elem_of_nil in Hin.
  - cbn [ScyllaDBDatacenter.setStatus ScyllaDBDatacenter.Status].
    destruct (updateAggregatedStatusFields status) as [aggregated|]; [|discriminate].
    cbn [mbind option_bind].
    destruct (scyllaClient_UpdateStatus sdcc _) as [stored|e'] eqn:Hwrite;
      intros Hres; injection Hres as <- <-; (split; [simpl; lia|]); split.
    + intros e. split; [discriminate|].
      intros (object & Hsent & Herr). injection Hsent as <-. congruence.
    + intros object Hin. apply list_elem_of_singleton in Hin as ->. by repeat split.
    + intros e. split.
      * intros He. injection He as <-. eexists. split; [reflexivity|exact Hwrite].
      * intros (object & Hsent & Herr). injection Hsent as <-. congruence.
    + intros object Hin. apply list_elem_of_singleton in Hin as ->. by repeat split.
Qed.

(** X15.  [updateStatus] compares the status as it is given, before it
    aggregates the counts again: a status that differs from the stored one
    but aggregates to it is still written, and the object written is equal
    to the stored one. *)
Theorem updateStatus_compares_before_aggregating (currentSC : ScyllaDBDatacenter.t X)
    (status : ScyllaDBDatacenterStatus.t X) :
  ScyllaDBDatacenter.Status currentSC <> status ->
  updateAggregatedStatusFields status = Some (ScyllaDBDatacenter.Status currentSC) ->
  exists err, updateStatus sdcc currentSC status = Some (err, [currentSC]).
Proof.
  intros Hne Hagg. unfold updateStatus. rewrite bool_decide_eq_false_2 by exact Hne.
  cbn [ScyllaDBDatacenter.setStatus ScyllaDBDatacenter.Status].
  rewrite Hagg. cbn [mbind option_bind].
  change (ScyllaDBDatacenter.setStatus (ScyllaDBDatacenter.Status currentSC)
            (ScyllaDBDatacenter.setStatus status currentSC))
    with (ScyllaDBDatacenter.setStatus (ScyllaDBDatacenter.Status currentSC) currentSC).
  rewrite setStatus_same.
  destruct (scyllaClient_UpdateStatus sdcc currentSC); by eexists.
Qed.

(** ** The Prewarmed condition *)

Lemma prewarmedOrdLoop_true_iff (sdc : ScyllaDBDatacenter.t X) services rack iterations :
  forall first,
    prewarmedOrdLoop imports sdcc sdc services rack iterations first true = true <->
    (forall ord, first <= ord < first + Z.of_nat iterations ->
       memberPrewarmed imports sdcc sdc services rack ord).
Proof.
  induction iterations as [|n IH]; intros first.
  - split; [intros _ ord Hord; lia|done].
  - cbn [prewarmedOrdLoop]. split.
    + intros Hloop ord Hord.
      destruct (services !! MemberServiceName imports rack sdc first) as [svc|] eqn:Hsvc;
        [|discriminate].
      destruct (podLister sdcc _ _) as [pod|] eqn:Hpod; [|discriminate].
      destruct (IsScyllaDBIgnitionContainerReady imports pod) eqn:Hready;
        [|by rewrite prewarmedOrdLoop_false in Hloop].
      destruct (IsDelayedVolumeMountContainerRunning imports pod) eqn:Hrunning;
        [|by rewrite prewarmedOrdLoop_false in Hloop].
      cbn [negb orb] in Hloop.
      destruct (decide (ord = first)) as [->|Hne].
      * by exists svc, pod.
      * apply (proj1 (IH (first + 1)) Hloop). lia.
    + intros Hall.
      destruct (Hall first) as (svc & pod & Hsvc & Hpod & Hready & Hrunning); [lia|].
      rewrite Hsvc, Hpod, Hready, Hrunning. cbn [negb orb].
      apply IH. intros ord Hord. apply Hall. lia.
Qed.

Lemma prewarmedRackLoop_true_iff (sdc : ScyllaDBDatacenter.t X) services racks :
  prewarmedRackLoop imports sdcc sdc services racks true = true <->
  (forall rack, rack ∈ racks -> rackPrewarmed imports sdcc sdc services rack).
Proof.
  induction racks as [|rack0 rest IH].
  - split; [|done]. intros _ rack Hin. by apply elem_of_nil in Hin.
  - cbn [prewarmedRackLoop]. split.
    + intros Hloop.
      destruct (GetRackNodeCount imports sdc (RackSpec.Name rack0)) as [count|] eqn:Hcount;
        [|discriminate].
      destruct (prewarmedOrdLoop imports sdcc sdc services rack0 (Z.to_nat count) 0 true)
        eqn:Hord; [|by rewrite prewarmedRackLoop_false in Hloop].
      intros rack Hin. apply elem_of_cons in Hin as [->|Hin].
      * exists count. split; [exact Hcount|]. intros ord Hrange.
        apply (proj1 (prewarmedOrdLoop_true_iff _ _ _ _ 0) Hord). lia.
      * by apply (proj1 IH Hloop).
    + intros Hall.
      destruct (Hall rack0) as (count & Hcount & Hmembers); [left|].
      rewrite Hcount.
      rewrite (proj2 (prewarmedOrdLoop_true_iff sdc services rack0 (Z.to_nat count) 0)).
      * apply IH. intros rack Hin. apply Hall. by right.
      * intros ord Hord. apply Hmembers. lia.
Qed.

(** X16.  [setPrewarmedStatusCondition] sets the Prewarmed condition to True
    exactly when, for every rack of the specification, the node count is
    obtained and every member below it has its service, the pod behind the
    service, a ready ignition container and a running delayed-volume-mount
    container; a rack without members asks for nothing.  The condition then
    carries the as-expected reason, an empty message and the generation of
    the datacenter. *)
Theorem prewarmed_true_iff (now : Z) (sdc : ScyllaDBDatacenter.t X)
    (status : ScyllaDBDatacenterStatus.t X) (services : gmap string Service.t) :
  (forall rack, rack ∈ ScyllaDBDatacenter.Spec_Racks sdc ->
     rackPrewarmed imports sdcc sdc services rack) <->
  (exists c,
     FindStatusCondition
       (ScyllaDBDatacenterStatus.Conditions
          (setPrewarmedStatusCondition imports sdcc now sdc status services))
       (PrewarmedCondition imports) = Some c /\
     Condition.Status c = ConditionTrue /\
     Condition.Reason c = AsExpectedReason imports /\
     Condition.Message c = "" /\
     Condition.ObservedGeneration c = ScyllaDBDatacenter.Generation sdc).
Proof.
  rewrite <- prewarmedRackLoop_true_iff. unfold setPrewarmedStatusCondition.
  cbn [ScyllaDBDatacenterStatus.setConditions ScyllaDBDatacenterStatus.Conditions].
  destruct (prewarmedRackLoop imports sdcc sdc services _ true).
  - split; [intros _|done].
    destruct (FindStatusCondition_Set now (ScyllaDBDatacenterStatus.Conditions status)
                (Condition.mk (PrewarmedCondition imports) ConditionTrue
                   (AsExpectedReason imports) "" (ScyllaDBDatacenter.Generation sdc) None))
      as (c & Hfind & Hstatus & Hreason & Hmessage & Hgeneration).
    exists c. by repeat split.
  - split; [discriminate|]. intros (c & Hfind & Hstatus & _).
    destruct (FindStatusCondition_Set now (ScyllaDBDatacenterStatus.Conditions status)
                (Condition.mk (PrewarmedCondition imports) ConditionFalse
                   "NotAllNodesPrewarmed" "Not all nodes are prewarmed yet."
                   (ScyllaDBDatacenter.Generation sdc) None))
      as (c' & Hfind' & Hstatus' & _).
    cbn [Condition.Type_ Condition.Status] in Hfind', Hstatus'.
    rewrite Hfind in Hfind'. injection Hfind' as <-.
    rewrite Hstatus in Hstatus'. discriminate.
Qed.

Lemma otherConditions_Set now conditions (c : Condition.t) :
  otherConditions (Condition.Type_ c) (SetStatusCondition now conditions c)
    = otherConditions (Condition.Type_ c) conditions.
Proof.
  unfold otherConditions. induction conditions as [|c0 rest IH].
  - cbn [SetStatusCondition List.filter Condition.Type_].
    by rewrite bool_decide_eq_true_2.
  - cbn [SetStatusCondition].
    destruct (bool_decide (Condition.Type_ c0 = Condition.Type_ c)) eqn:Htype.
    + cbn [List.filter].
      change (Condition.Type_ (updateCondition now c0 c)) with (Condition.Type_ c0).
      by rewrite Htype.
    + cbn [List.filter]. rewrite Htype. cbn [negb]. by rewrite IH.
Qed.

Lemma SetStatusCondition_length now conditions (c : Condition.t) :
  (is_Some (FindStatusCondition conditions (Condition.Type_ c)) ->
   length (SetStatusCondition now conditions c) = length conditions) /\
  (FindStatusCondition conditions (Condition.Type_ c) = None ->
   exists added, SetStatusCondition now conditions c = conditions ++ [added]).
Proof.
  unfold FindStatusCondition. induction conditions as [|c0 rest [IHsome IHnone]].
  - split; [by intros [? ?]|]. intros _. by eexists.
  - cbn [SetStatusCondition find].
    destruct (bool_decide (Condition.Type_ c0 = Condition.Type_ c)).
    + split; [done|discriminate].
    + split.
      * intros Hsome. cbn [length]. by rewrite IHsome.
      * intros Hnone. destruct (IHnone Hnone) as [added ->]. by exists added.
Qed.

(** X17.  [setPrewarmedStatusCondition] touches the Prewarmed condition
    only: the conditions of other types keep their content and order, the
    list grows by one entry at its end when it had no Prewarmed condition
    and keeps its length otherwise, and the racks, the counts, the observed
    generation and the further fields of the status are not changed. *)
Theorem setPrewarmedStatusCondition_frame (now : Z) (sdc : ScyllaDBDatacenter.t X)
    (status : ScyllaDBDatacenterStatus.t X) (services : gmap string Service.t) :
  otherConditions (PrewarmedCondition imports)
    (ScyllaDBDatacenterStatus.Conditions
       (setPrewarmedStatusCondition imports sdcc now sdc status services))
  = otherConditions (PrewarmedCondition imports)
      (ScyllaDBDatacenterStatus.Conditions status) /\
  (is_Some (FindStatusCondition (ScyllaDBDatacenterStatus.Conditions status)
              (PrewarmedCondition imports)) ->
   length (ScyllaDBDatacenterStatus.Conditions
             (setPrewarmedStatusCondition imports sdcc now sdc status services))
   = length (ScyllaDBDatacenterStatus.Conditions status)) /\
  (FindStatusCondition (ScyllaDBDatacenterStatus.Conditions status)
     (PrewarmedCondition imports) = None ->
   exists added,
     ScyllaDBDatacenterStatus.Conditions
       (setPrewarmedStatusCondition imports sdcc now sdc status services)
     = ScyllaDBDatacenterStatus.Conditions status ++ [added]) /\
  setPrewarmedStatusCondition imports sdcc now sdc status services
  = ScyllaDBDatacenterStatus.setConditions
      (ScyllaDBDatacenterStatus.Conditions
         (setPrewarmedStatusCondition imports sdcc now sdc status services))
      status.
Proof.
  unfold setPrewarmedStatusCondition.
  cbn [ScyllaDBDatacenterStatus.setConditions ScyllaDBDatacenterStatus.Conditions].
  destruct (prewarmedRackLoop imports sdcc sdc services _ true).
  - split; [exact (otherConditions_Set now _ (Condition.mk _ _ _ _ _ _))|].
    split; [|split; [|reflexivity]];
      apply (SetStatusCondition_length now _ (Condition.mk _ _ _ _ _ _)).
  - split; [exact (otherConditions_Set now _ (Condition.mk _ _ _ _ _ _))|].
    split; [|split; [|reflexivity]];
      apply (SetStatusCondition_length now _ (Condition.mk _ _ _ _ _ _)).
Qed.

End StatusCoverage.

(** * Properties of the fake RemoteOwner client *)

Lemma filter_sublist {A} (f : A -> bool) (l : list A) : sublist (List.filter f l) l.
Proof.
  induction l as [|x l IH]; [constructor|].
  cbn [List.filter]. destruct (f x); by constructor.
Qed.

(** X18.  [List] of the fake client returns nil and the tracker's error
    when the tracker returns no object.  When the tracker returns a list, it
    returns, with the tracker's error and list metadata, the items of that
    list whose labels the selector extracted from the options matches: all
    of them, no other, in the tracker's order.  A nil selector is replaced
    by [labels.Everything()], so every item is returned then, as it is
    whenever the selector matches every tracked item. *)
Theorem fake_list_filters_by_label (c : FakeRemoteOwners) (opts : ListOptions)
    (err : option error) :
  (Fake_Invokes c
     {| action_resource := remoteownersResource; action_kind := remoteownersKind;
        action_namespace := ns c; action_opts := opts |}
     (ObjRemoteOwnerList (RemoteOwnerList.mk "" [])) = (None, err) ->
   FakeRemoteOwners_List c opts = Some (None, err)) /\
  (forall tracked,
     Fake_Invokes c
       {| action_resource := remoteownersResource; action_kind := remoteownersKind;
          action_namespace := ns c; action_opts := opts |}
       (ObjRemoteOwnerList (RemoteOwnerList.mk "" []))
       = (Some (ObjRemoteOwnerList tracked), err) ->
     exists result,
       FakeRemoteOwners_List c opts = Some (Some result, err) /\
       RemoteOwnerList.ListMeta result = RemoteOwnerList.ListMeta tracked /\
       (forall item,
          item ∈ RemoteOwnerList.Items result <->
          item ∈ RemoteOwnerList.Items tracked /\
          default Everything (ExtractFromListOptions c opts) (RemoteOwner.Labels item)
            = true) /\
       sublist (RemoteOwnerList.Items result) (RemoteOwnerList.Items tracked) /\
       (ExtractFromListOptions c opts = None ->
        RemoteOwnerList.Items result = RemoteOwnerList.Items tracked) /\
       ((forall item, item ∈ RemoteOwnerList.Items tracked ->
           default Everything (ExtractFromListOptions c opts) (RemoteOwner.Labels item)
             = true) ->
        RemoteOwnerList.Items result = RemoteOwnerList.Items tracked)).
Proof.
  unfold FakeRemoteOwners_List. split.
  - intros ->. reflexivity.
  - intros tracked ->. eexists. split; [reflexivity|].
    cbn [RemoteOwnerList.ListMeta RemoteOwnerList.Items].
    split; [reflexivity|]. split; [|split; [|split]].
    + intros item. rewrite !list_elem_of_In, filter_In.
      by destruct (ExtractFromListOptions c opts).
    + apply filter_sublist.
    + intros ->. cbn [Everything]. unfold Everything.
      induction (RemoteOwnerList.Items tracked) as [|x l IH]; [done|].
      cbn [List.filter]. by rewrite IH.
    + intros Hall.
      assert (Hlabel : forall item, item ∈ RemoteOwnerList.Items tracked ->
                match ExtractFromListOptions c opts with
                | Some label => label
                | None => Everything
                end (RemoteOwner.Labels item) = true).
      { intros item Hin. specialize (Hall item Hin).
        by destruct (ExtractFromListOptions c opts). }
      clear Hall. induction (RemoteOwnerList.Items tracked) as [|x l IH]; [done|].
      cbn [List.filter]. rewrite Hlabel by left. f_equal. apply IH.
      intros item Hin. apply Hlabel. by right.
Qed.

(** ** The further properties on concrete inputs *)

Lemma calculateStatus_racks_follow_spec_witness :
  exists computed,
    calculateStatus SampleCluster.imports
      (SampleCluster.controller SampleCluster.allReady)
      SampleCluster.dc SampleCluster.statefulSetMap = Some computed /\
    mapM (rackStatusOf SampleCluster.imports
            (SampleCluster.controller SampleCluster.allReady)
            SampleCluster.dc SampleCluster.statefulSetMap)
         [SampleCluster.rackA; SampleCluster.rackB]
      = Some (ScyllaDBDatacenterStatus.Racks computed) /\
    length (ScyllaDBDatacenterStatus.Racks computed) = 2%nat /\
    ScyllaDBDatacenterStatus.ObservedGeneration computed = Some 7.
Proof.
  exact (calculateStatus_racks_follow_spec SampleCluster.imports
           (SampleCluster.controller SampleCluster.allReady)
           SampleCluster.dc SampleCluster.statefulSetMap SampleCluster_replicasSet).
Defined.

Lemma calculateStatus_without_workloads_witness :
  calculateStatus SampleCluster.imports
    (SampleCluster.controller SampleCluster.allReady) SampleCluster.dc ∅
  = Some (ScyllaDBDatacenterStatus.mk (Some 7) [SampleCluster.available]
            [zeroRackStatus; zeroRackStatus] (Some 0) (Some 0) (Some 0) "kept").
Proof.
  refine (calculateStatus_without_workloads SampleCluster.imports
            (SampleCluster.controller SampleCluster.allReady) SampleCluster.dc ∅ _).
  intros rack _. apply lookup_empty.
Defined.

Lemma calculateStatus_ignores_stored_counts_witness :
  calculateStatus SampleCluster.imports
    (SampleCluster.controller SampleCluster.allReady)
    (ScyllaDBDatacenter.setStatus SampleMore.miscounted SampleCluster.dc)
    SampleCluster.statefulSetMap
  = calculateStatus SampleCluster.imports
      (SampleCluster.controller SampleCluster.allReady)
      SampleCluster.dc SampleCluster.statefulSetMap.
Proof.
  exact (calculateStatus_ignores_stored_counts SampleCluster.imports
           (SampleCluster.controller SampleCluster.allReady)
           SampleCluster.dc SampleCluster.statefulSetMap SampleMore.miscounted
           SampleCluster_importsIgnoreStatus eq_refl eq_refl).
Defined.

Lemma rack_versions_witness :
  exists status,
    calculateRackStatus SampleCluster.imports
      (SampleCluster.controller SampleCluster.allReady) SampleCluster.dc
      (Some SampleCluster.stsA) = Some status /\
    RackStatus.UpdatedVersion status = "6.2.0" /\
    RackStatus.CurrentVersion status = "6.2.0".
Proof.
  destruct (rack_versions SampleCluster.imports
              (SampleCluster.controller SampleCluster.allReady) SampleCluster.dc
              SampleCluster.stsA 3 eq_refl)
    as (status & Hcalc & Hupdated & _).
  exists status. split; [exact Hcalc|]. split; [exact Hupdated|].
  vm_compute in Hcalc. injection Hcalc as <-. reflexivity.
Defined.

Lemma updateAggregatedStatusFields_overwrites_witness :
  updateAggregatedStatusFields SampleMore.miscounted = Some SampleCluster.calculated /\
  updateAggregatedStatusFields SampleCluster.calculated = Some SampleCluster.calculated.
Proof.
  destruct (updateAggregatedStatusFields_overwrites
              SampleCluster.calculated SampleCluster.calculated eq_refl)
    as (Hany & Hagain & _).
  split; [exact (Hany (Some 9) None None)|exact Hagain].
Defined.

Lemma updateStatus_returns_write_error_witness :
  exists object,
    [ScyllaDBDatacenter.setStatus SampleCluster.computed SampleCluster.dc] = [object] /\
    scyllaClient_UpdateStatus (SampleMore.failingController SampleCluster.allReady) object
      = Err SampleMore.conflict.
Proof.
  assert (Hrun :
    updateStatus (SampleMore.failingController SampleCluster.allReady)
      SampleCluster.dc SampleCluster.computed
    = Some (Some SampleMore.conflict,
            [ScyllaDBDatacenter.setStatus SampleCluster.computed SampleCluster.dc])).
  { vm_compute. reflexivity. }
  destruct (updateStatus_returns_write_error
              (SampleMore.failingController SampleCluster.allReady)
              SampleCluster.dc SampleCluster.computed _ _ Hrun)
    as (_ & Herr & _).
  exact (proj1 (Herr SampleMore.conflict) eq_refl).
Defined.

Lemma updateStatus_compares_before_aggregating_witness :
  exists err,
    updateStatus (SampleCluster.controller SampleCluster.allReady)
      SampleMore.storedDc SampleMore.miscounted
    = Some (err, [SampleMore.storedDc]).
Proof.
  refine (updateStatus_compares_before_aggregating
            (SampleCluster.controller SampleCluster.allReady)
            SampleMore.storedDc SampleMore.miscounted _ eq_refl).
  intros Heq. apply (f_equal ScyllaDBDatacenterStatus.Nodes) in Heq.
  vm_compute in Heq. discriminate.
Defined.

Lemma fake_list_filters_by_label_witness :
  exists result,
    FakeRemoteOwners_List SampleMore.fake
      {| LabelSelector := "app=scylla"; FieldSelector := "" |} = Some (Some result, None) /\
    RemoteOwnerList.ListMeta result = "rv-12" /\
    sublist (RemoteOwnerList.Items result) (RemoteOwnerList.Items SampleMore.tracked).
Proof.
  destruct (proj2 (fake_list_filters_by_label SampleMore.fake
                     {| LabelSelector := "app=scylla"; FieldSelector := "" |} None)
              SampleMore.tracked eq_refl)
    as (result & Hlist & Hmeta & _ & Hsub & _).
  exists result. split; [exact Hlist|]. split; [exact Hmeta|exact Hsub].
Defined.
